(** * Task routes of the task-manager API: a shallow embedding

    The development follows [routes/tasks.js]: six Express handlers over a
    Mongoose model [Task].  A handler is a computation over the task
    collection that either sends one JSON response or forwards an exception
    to [next].  The collection is a finite map from document identifiers to
    task documents; request bodies and query strings are finite maps from
    property names to values. *)

From Stdlib Require Import ZArith Ascii String.
From stdpp Require Import gmap strings list fin_maps sorting.

Local Open Scope string_scope.
Set Warnings "-register-all".

(** ** JavaScript values *)

(** The values a parsed JSON body can hold, together with [undefined] (the
    result of reading a property that is not there) and the [Date] objects
    the handlers build.  [JDate v] stands for [new Date(v)].  Numbers are
    kept as integers: the handlers only ever test them for truthiness. *)
Inductive jsval : Type :=
  | JUndefined
  | JNull
  | JBool (b : bool)
  | JNum (n : Z)
  | JStr (s : string)
  | JArray (items : list jsval)
  | JObject (members : list (string * jsval))
  | JDate (arg : jsval).

(** [ToBoolean]: what [if (v)], [!v] and [v ? a : b] look at. *)
Definition truthy (v : jsval) : bool :=
  match v with
  | JUndefined | JNull => false
  | JBool b => b
  | JNum n => negb (n =? 0)%Z
  | JStr s => negb (String.eqb s "")
  | JArray _ | JObject _ | JDate _ => true
  end.

Definition is_string (v : jsval) : bool :=
  match v with JStr _ => true | _ => false end.

(** [v !== undefined] *)
Definition defined (v : jsval) : bool :=
  match v with JUndefined => false | _ => true end.

(** ** [String.prototype.trim] *)

(** Characters are code units below 256; these are the white space and
    line terminator code units of that range. *)
Definition is_white_space (c : ascii) : bool :=
  existsb (N.eqb (Ascii.N_of_ascii c)) [9; 10; 11; 12; 13; 32; 160]%N.

Fixpoint trimStart (s : string) : string :=
  match s with
  | EmptyString => EmptyString
  | String c r => if is_white_space c then trimStart r else s
  end.

Fixpoint trimEnd (s : string) : string :=
  match s with
  | EmptyString => EmptyString
  | String c r =>
      match trimEnd r with
      | EmptyString => if is_white_space c then EmptyString else String c EmptyString
      | r' => String c r'
      end
  end.

Definition trim (s : string) : string := trimEnd (trimStart s).

(** A title is blank when nothing is left of it after trimming. *)
Definition blank (s : string) : bool := String.eqb (trim s) "".

(** ** Task documents and the collection *)

(** The fields of a task document the handlers read or write.  [title] is
    only ever assigned the result of a [trim]; the other writable fields
    receive request values as they come, so they stay dynamically typed.
    [user] is the owner.  The store-managed time stamps are never touched by
    a handler and are left out. *)
Record Task : Type := mkTask {
  title : string;
  description : jsval;
  dueDate : jsval;
  priority : jsval;
  completed : jsval;
  user : string
}.

Definition set_title (s : string) (t : Task) : Task :=
  mkTask s (description t) (dueDate t) (priority t) (completed t) (user t).
Definition set_description (v : jsval) (t : Task) : Task :=
  mkTask (title t) v (dueDate t) (priority t) (completed t) (user t).
Definition set_dueDate (v : jsval) (t : Task) : Task :=
  mkTask (title t) (description t) v (priority t) (completed t) (user t).
Definition set_priority (v : jsval) (t : Task) : Task :=
  mkTask (title t) (description t) (dueDate t) v (completed t) (user t).
Definition set_completed (v : jsval) (t : Task) : Task :=
  mkTask (title t) (description t) (dueDate t) (priority t) v (user t).

(** A document is a task together with its [_id]. *)
Definition document : Type := string * Task.
Definition _id (d : document) : string := fst d.
Definition fields (d : document) : Task := snd d.
Definition assign (f : Task -> Task) (d : document) : document := (fst d, f (snd d)).

(** The collection, keyed by [_id] (the unique index of the store). *)
Abbreviation collection := (gmap string Task).

(** Query conditions as the handlers build them: [{ _id, user }] for the
    single-document routes, [{ user, priority?, completed? }] for the list. *)
Record criteria : Type := mkCriteria {
  c_id : option string;
  c_user : string;
  c_priority : option string;
  c_completed : option bool
}.

Definition matches (c : criteria) (d : document) : bool :=
  match c_id c with Some i => String.eqb (_id d) i | None => true end
  && String.eqb (user (fields d)) (c_user c)
  && match c_priority c with
     | Some p => match priority (fields d) with JStr s => String.eqb s p | _ => false end
     | None => true
     end
  && match c_completed c with
     | Some b => match completed (fields d) with JBool b' => Bool.eqb b' b | _ => false end
     | None => true
     end.

(** The object handed to [new Task(...)]; a property that was not added
    reads as [undefined]. *)
Record taskData : Type := mkTaskData {
  td_title : string;
  td_user : string;
  td_description : jsval;
  td_dueDate : jsval;
  td_priority : jsval
}.

(** Modelled from the spec: [models/Task.js] (the Mongoose schema) and the
    database driver are not part of the sources.  The spec gives the store
    as a document service with filter and sort queries, save and delete,
    a priority default "defined by store schema", [completed] defaulting to
    false, and failures of the store forwarded to the error formatter.  The
    model keeps what the spec leaves open as components: the default
    priority, the generator of identifiers (which never returns one in use),
    the schema's validation at save time and the ordering applied by [sort],
    of which only that it reorders is assumed. *)
Class TaskModel : Type := {
  default_priority : jsval;
  ObjectId : collection -> string;
  ObjectId_fresh : forall s, s !! ObjectId s = None;
  validate : Task -> bool;
  sort : string * Z -> list document -> list document;
  sort_Permutation : forall o l, sort o l ≡ₚ l
}.

(** ** Handler computations *)

Inductive exn : Type := TypeError | ValidationError.

Inductive completion (A : Type) : Type :=
  | Normal (a : A)
  | Throw (e : exn).
Arguments Normal {A} a.
Arguments Throw {A} e.

(** State-and-exception computations over the collection. *)
Definition M (A : Type) : Type := collection -> completion A * collection.

Definition ret {A} (a : A) : M A := fun s => (Normal a, s).
Definition throw {A} (e : exn) : M A := fun s => (Throw e, s).
Definition bind {A B} (m : M A) (k : A -> M B) : M B :=
  fun s => match m s with
           | (Normal a, s') => k a s'
           | (Throw e, s') => (Throw e, s')
           end.

Notation "x <~ m ;; k" := (bind m (fun x => k))
  (at level 100, m at next level, right associativity).
Notation "m ;;; k" := (bind m (fun _ => k))
  (at level 100, right associativity).

(** [v.trim()]: the method exists on strings only; on anything else the
    call raises a [TypeError]. *)
Definition js_trim (v : jsval) : M string :=
  match v with
  | JStr s => ret (trim s)
  | _ => throw TypeError
  end.

(** Reading a property of a parsed object. *)
Definition prop {V} (dflt : V) (o : gmap string V) (k : string) : V :=
  default dflt (o !! k).

Section Store.
Context {TM : TaskModel}.

(** [Task.find(c).sort(o)] *)
Definition Task_find (c : criteria) (o : string * Z) : M (list document) :=
  fun s => (Normal (sort o (List.filter (matches c) (map_to_list s))), s).

(** [Task.findOne(c)] *)
Definition Task_findOne (c : criteria) : M (option document) :=
  fun s => (Normal (head (List.filter (matches c) (map_to_list s))), s).

(** [Task.findOneAndDelete(c)] *)
Definition Task_findOneAndDelete (c : criteria) : M (option document) :=
  fun s => match head (List.filter (matches c) (map_to_list s)) with
           | Some d => (Normal (Some d), delete (_id d) s)
           | None => (Normal None, s)
           end.

(** [new Task(data)]: a fresh identifier and the schema defaults for what
    [data] does not carry ([completed] starts as [false], the priority as
    the default of the schema). *)
Definition new_Task (data : taskData) : M document :=
  fun s => (Normal (ObjectId s,
                    {| title := td_title data;
                       description := td_description data;
                       dueDate := td_dueDate data;
                       priority := if defined (td_priority data)
                                   then td_priority data else default_priority;
                       completed := JBool false;
                       user := td_user data |}), s).

(** [doc.save()]: validates against the schema, then writes the document
    under its identifier. *)
Definition save (d : document) : M unit :=
  fun s => if validate (fields d)
           then (Normal tt, <[_id d := fields d]> s)
           else (Throw ValidationError, s).
End Store.

(** ** Requests and responses *)

(** What a handler reads of the request: [req.user.id] as attached by the
    authentication middleware, [req.params.id] (a well-formed identifier),
    the parsed query string (plain [key=value] pairs, so string values) and
    the parsed JSON body. *)
Record request : Type := mkRequest {
  user_id : string;
  params_id : string;
  query : gmap string string;
  body : gmap string jsval
}.

Inductive payload : Type :=
  | NoData
  | OneTask (d : document)
  | Tasks (ds : list document).

(** The JSON object passed to [res.json], with the status it is sent under
    ([res.json] alone sends 200). *)
Record response : Type := mkResponse {
  status : Z;
  success : bool;
  message : option string;
  count : option nat;
  data : payload
}.

(** What the route ends with: a response, or [next(error)]. *)
Inductive outcome : Type :=
  | Sent (r : response)
  | Next (e : exn).

(** [try { ... } catch (error) { next(error) }] *)
Definition try_catch (m : M response) (s : collection) : outcome * collection :=
  match m s with
  | (Normal r, s') => (Sent r, s')
  | (Throw e, s') => (Next e, s')
  end.

Definition not_found : response :=
  mkResponse 404 false (Some "Task not found") None NoData.

Section Routes.
Context {TM : TaskModel}.

(** [GET /tasks] *)
Definition get_tasks (req : request) : collection -> outcome * collection :=
  try_catch (
    let priority := query req !! "priority" in
    let completed := query req !! "completed" in
    let sortBy := default "createdAt" (query req !! "sortBy") in
    let order := default "desc" (query req !! "order") in
    let filter := mkCriteria None (user_id req) None None in
    let filter :=
      match priority with
      | Some p =>
          if negb (String.eqb p "") && negb (String.eqb p "all")
          then mkCriteria (c_id filter) (c_user filter) (Some p) (c_completed filter)
          else filter
      | None => filter
      end in
    let filter :=
      match completed with
      | Some v =>
          if negb (String.eqb v "all")
          then mkCriteria (c_id filter) (c_user filter) (c_priority filter)
                          (Some (String.eqb v "true"))
          else filter
      | None => filter
      end in
    let sortOrder := if String.eqb order "asc" then 1%Z else (-1)%Z in
    let sortObj := (sortBy, sortOrder) in
    tasks <~ Task_find filter sortObj ;;
    ret (mkResponse 200 true None (Some (length tasks)) (Tasks tasks))).

(** [GET /tasks/:id] *)
Definition get_task (req : request) : collection -> outcome * collection :=
  try_catch (
    task <~ Task_findOne (mkCriteria (Some (params_id req)) (user_id req) None None) ;;
    match task with
    | None => ret not_found
    | Some task => ret (mkResponse 200 true None None (OneTask task))
    end).

(** [POST /tasks] *)
Definition post_task (req : request) : collection -> outcome * collection :=
  try_catch (
    let title := prop JUndefined (body req) "title" in
    let description := prop JUndefined (body req) "description" in
    let dueDate := prop JUndefined (body req) "dueDate" in
    let priority := prop JUndefined (body req) "priority" in
    missing <~ (if negb (truthy title) then ret true
                else (t <~ js_trim title ;; ret (String.eqb t ""))) ;;
    if (missing : bool)
    then ret (mkResponse 400 false (Some "Task title is required") None NoData)
    else
      t <~ js_trim title ;;
      let taskData := mkTaskData t (user_id req) JUndefined JUndefined JUndefined in
      taskData <~ (if truthy description
                   then (d <~ js_trim description ;;
                         ret (mkTaskData (td_title taskData) (td_user taskData) (JStr d)
                                         (td_dueDate taskData) (td_priority taskData)))
                   else ret taskData) ;;
      let taskData :=
        if truthy dueDate
        then mkTaskData (td_title taskData) (td_user taskData) (td_description taskData)
                        (JDate dueDate) (td_priority taskData)
        else taskData in
      let taskData :=
        if truthy priority
        then mkTaskData (td_title taskData) (td_user taskData) (td_description taskData)
                        (td_dueDate taskData) priority
        else taskData in
      task <~ new_Task taskData ;;
      (save task ;;;
       ret (mkResponse 201 true (Some "Task created successfully") None (OneTask task)))).

(** [PUT /tasks/:id] *)
Definition put_task (req : request) : collection -> outcome * collection :=
  try_catch (
    let title := prop JUndefined (body req) "title" in
    let description := prop JUndefined (body req) "description" in
    let dueDate := prop JUndefined (body req) "dueDate" in
    let priority := prop JUndefined (body req) "priority" in
    let completed := prop JUndefined (body req) "completed" in
    task <~ Task_findOne (mkCriteria (Some (params_id req)) (user_id req) None None) ;;
    match task with
    | None => ret not_found
    | Some task =>
        task <~ (if defined title
                 then (t <~ js_trim title ;; ret (assign (set_title t) task))
                 else ret task) ;;
        task <~ (if defined description
                 then (d <~ js_trim description ;; ret (assign (set_description (JStr d)) task))
                 else ret task) ;;
        let task :=
          if defined dueDate
          then assign (set_dueDate (if truthy dueDate then JDate dueDate else JNull)) task
          else task in
        let task := if defined priority then assign (set_priority priority) task else task in
        let task := if defined completed then assign (set_completed completed) task else task in
        (save task ;;;
         ret (mkResponse 200 true (Some "Task updated successfully") None (OneTask task)))
    end).

(** [DELETE /tasks/:id] *)
Definition delete_task (req : request) : collection -> outcome * collection :=
  try_catch (
    task <~ Task_findOneAndDelete
              (mkCriteria (Some (params_id req)) (user_id req) None None) ;;
    match task with
    | None => ret not_found
    | Some _ => ret (mkResponse 200 true (Some "Task deleted successfully") None NoData)
    end).

(** [PATCH /tasks/:id/toggle] *)
Definition toggle_task (req : request) : collection -> outcome * collection :=
  try_catch (
    task <~ Task_findOne (mkCriteria (Some (params_id req)) (user_id req) None None) ;;
    match task with
    | None => ret not_found
    | Some task =>
        let task := assign (set_completed (JBool (negb (truthy (completed (fields task)))))) task in
        (save task ;;;
         ret (mkResponse 200 true
                (Some ("Task marked as " ++
                       (if truthy (completed (fields task)) then "completed" else "incomplete")))
                None (OneTask task)))
    end).
End Routes.

(** ** The vocabulary of the statements *)

(** The conditions [{ _id: i, user: u }] of the single-task routes. *)
Definition by_id_and_user (i u : string) : criteria := mkCriteria (Some i) u None None.

(** The document [findOne({ _id: i, user: u })] yields. *)
Definition owned (s : collection) (i u : string) : option document :=
  match s !! i with
  | Some t => if String.eqb (user t) u then Some (i, t) else None
  | None => None
  end.

(** The answer of the create route to a missing title. *)
Definition bad_request : response :=
  mkResponse 400 false (Some "Task title is required") None NoData.

(** The document the create route hands to [save] when the title of the
    body is the string [x]. *)
Definition drafted {TM : TaskModel} (req : request) (x : string) (s : collection) : document :=
  let description := prop JUndefined (body req) "description" in
  let dueDate := prop JUndefined (body req) "dueDate" in
  let priority := prop JUndefined (body req) "priority" in
  (ObjectId s,
   {| title := trim x;
      description := match description with
                     | JStr d => if truthy description then JStr (trim d) else JUndefined
                     | _ => JUndefined
                     end;
      dueDate := if truthy dueDate then JDate dueDate else JUndefined;
      priority := if truthy priority then priority else default_priority;
      completed := JBool false;
      user := user_id req |}).

(** What the create route does once the body has passed its checks. *)
Definition saved_as_new {TM : TaskModel} (d : document) (s : collection)
  : outcome * collection :=
  if validate (fields d)
  then (Sent (mkResponse 201 true (Some "Task created successfully") None (OneTask d)),
        <[_id d := fields d]> s)
  else (Next ValidationError, s).

(** The task the update route hands to [save], when the title and the
    description of the body are strings or missing. *)
Definition revised (req : request) (t : Task) : Task :=
  let b_title := prop JUndefined (body req) "title" in
  let b_description := prop JUndefined (body req) "description" in
  let b_dueDate := prop JUndefined (body req) "dueDate" in
  let b_priority := prop JUndefined (body req) "priority" in
  let b_completed := prop JUndefined (body req) "completed" in
  {| title := match b_title with JStr x => trim x | _ => title t end;
     description := match b_description with JStr d => JStr (trim d) | _ => description t end;
     dueDate := if defined b_dueDate
                then (if truthy b_dueDate then JDate b_dueDate else JNull)
                else dueDate t;
     priority := if defined b_priority then b_priority else priority t;
     completed := if defined b_completed then b_completed else completed t;
     user := user t |}.

(** The values [v] for which [v !== undefined] fails or [v.trim()] works. *)
Definition string_or_missing (v : jsval) : bool := negb (defined v) || is_string v.

(** Every stored task has a title that does not trim to the empty string. *)
Definition titled (s : collection) : Prop :=
  forall i t, s !! i = Some t -> blank (title t) = false.

(** Modelled from the spec: the rule for [title] of the schema in
    [models/Task.js], which is not among the sources.  The data model gives
    the title as a "non-empty string, trimmed" that "is never empty or
    whitespace-only after trimming". *)
Definition title_rule (t : Task) : bool := negb (blank (title t)).


(** What the [priority] parameter of the query asks of a task. *)
Definition priority_admits (p : option string) (t : Task) : Prop :=
  match p with
  | Some p => if String.eqb p "" || String.eqb p "all" then True else priority t = JStr p
  | None => True
  end.

(** What the [completed] parameter of the query asks of a task. *)
Definition completed_admits (v : option string) (t : Task) : Prop :=
  match v with
  | Some v => if String.eqb v "all" then True else completed t = JBool (String.eqb v "true")
  | None => True
  end.

(** ** The router *)

(** The six registrations of the router, in the order of the file. *)
Inductive route : Type :=
  | GET_tasks
  | GET_task
  | POST_task
  | PUT_task
  | DELETE_task
  | PATCH_toggle.

(** The handler registered for a route. *)
Definition handle {TM : TaskModel} (r : route)
  : request -> collection -> outcome * collection :=
  match r with
  | GET_tasks => get_tasks
  | GET_task => get_task
  | POST_task => post_task
  | PUT_task => put_task
  | DELETE_task => delete_task
  | PATCH_toggle => toggle_task
  end.

(** The routes that name a task in their path. *)
Definition names_a_task (r : route) : bool :=
  match r with
  | GET_task | PUT_task | DELETE_task | PATCH_toggle => true
  | GET_tasks | POST_task => false
  end.

(** The ways a request of the user [u] can leave the collection: as it was,
    with one new document of [u] under an identifier that was free, with one
    document of [u] replaced by another of [u], or with one document of [u]
    removed. *)
Inductive change (u : string) (s : collection) : collection -> Prop :=
  | unchanged : change u s s
  | inserted i t : s !! i = None -> user t = u -> change u s (<[i := t]> s)
  | replaced i t t' :
      s !! i = Some t -> user t = u -> user t' = u -> change u s (<[i := t']> s)
  | removed i t : s !! i = Some t -> user t = u -> change u s (delete i s).

(** ** Sample data *)

Module Sample.
Definition milk : Task :=
  mkTask "Buy milk" JUndefined JUndefined (JStr "medium") (JBool false) "alice".
Definition report : Task :=
  mkTask "Write report" (JStr "quarterly") JNull (JStr "high") (JBool true) "alice".
Definition taxes : Task :=
  mkTask "File taxes" JUndefined JUndefined (JStr "high") (JBool false) "bob".

Definition store : collection := <["0" := milk]> (<["00" := report]> (<["000" := taxes]> ∅)).

(** A request of [who] on the task [i] with the body [b]. *)
Definition on_task (who i : string) (b : list (string * jsval)) : request :=
  mkRequest who i ∅ (list_to_map b).

(** A list request of [who] with the query [q]. *)
Definition listing (who : string) (q : list (string * string)) : request :=
  mkRequest who "" (list_to_map q) ∅.
End Sample.

(** ** An in-memory store *)

(** A reference instance of the store: identifiers are runs of zeros longer
    than any identifier in use, every document passes validation, the
    default priority is ["medium"], and [sort] orders by identifier. *)
Module Memory.
Definition longest (l : list document) : nat :=
  foldr (fun d n => Nat.max (String.length (_id d)) n) 0%nat l.

Fixpoint zeros (n : nat) : string :=
  match n with
  | O => EmptyString
  | S n' => String "0" (zeros n')
  end.

Definition next_id (s : collection) : string := zeros (S (longest (map_to_list s))).

Definition by_id (o : string * Z) (l : list document) : list document :=
  let sorted := merge_sort (fun a b : document => String.le (_id a) (_id b)) l in
  if (snd o =? 1)%Z then sorted else reverse sorted.

Lemma length_zeros n : String.length (zeros n) = n.
Proof. induction n as [|n IH]; simpl; [reflexivity | now rewrite IH]. Qed.

Lemma longest_bound (l : list document) (d : document) :
  d ∈ l -> (String.length (_id d) <= longest l)%nat.
Proof.
  induction l as [|x l IH]; intros Hd.
  - inversion Hd.
  - apply elem_of_cons in Hd as [-> | Hd]; simpl; [lia |].
    specialize (IH Hd). lia.
Qed.

Lemma next_id_fresh (s : collection) : s !! next_id s = None.
Proof.
  destruct (s !! next_id s) as [t|] eqn:E; [|reflexivity].
  apply elem_of_map_to_list in E.
  apply longest_bound in E. unfold next_id, _id in E. simpl in E.
  rewrite length_zeros in E. lia.
Qed.

Lemma by_id_Permutation o l : by_id o l ≡ₚ l.
Proof.
  unfold by_id. destruct (snd o =? 1)%Z.
  - apply merge_sort_Permutation.
  - rewrite reverse_Permutation. apply merge_sort_Permutation.
Qed.

Definition model : TaskModel :=
  {| default_priority := JStr "medium";
     ObjectId := next_id;
     ObjectId_fresh := next_id_fresh;
     validate := fun _ => true;
     sort := by_id;
     sort_Permutation := by_id_Permutation |}.
End Memory.

(** The in-memory store with the title rule as its validation. *)
Definition strict_memory : TaskModel :=
  {| default_priority := JStr "medium";
     ObjectId := Memory.next_id;
     ObjectId_fresh := Memory.next_id_fresh;
     validate := title_rule;
     sort := Memory.by_id;
     sort_Permutation := Memory.by_id_Permutation |}.

(** ** [trim] *)

Lemma trimEnd_idem s : trimEnd (trimEnd s) = trimEnd s.
Proof.
  induction s as [|c r IH]; simpl; [reflexivity |].
  destruct (trimEnd r) as [|c' r'] eqn:E.
  - destruct (is_white_space c) eqn:W; simpl; [reflexivity | now rewrite W].
  - simpl in *. rewrite IH. reflexivity.
Qed.

Lemma trimStart_head s :
  trimStart s = "" \/ exists c r, trimStart s = String c r /\ is_white_space c = false.
Proof.
  induction s as [|c r IH]; simpl; [now left |].
  destruct (is_white_space c) eqn:W; [exact IH | right; eauto].
Qed.

Lemma trimEnd_head c r :
  is_white_space c = false -> exists r', trimEnd (String c r) = String c r'.
Proof.
  intros W. simpl. destruct (trimEnd r); rewrite ?W; eauto.
Qed.

Lemma trim_idem s : trim (trim s) = trim s.
Proof.
  unfold trim. destruct (trimStart_head s) as [E | (c & r & E & W)]; rewrite E.
  - reflexivity.
  - destruct (trimEnd_head c r W) as [r' E']. rewrite E'.
    replace (trimStart (String c r')) with (String c r') by (simpl; now rewrite W).
    rewrite <- E'. apply trimEnd_idem.
Qed.

Lemma blank_trim s : blank (trim s) = blank s.
Proof. unfold blank. now rewrite trim_idem. Qed.

Lemma blank_false_nonempty s : blank s = false -> s <> "".
Proof. intros Hb ->. discriminate Hb. Qed.

Example trim_ex : trim "  Buy  milk  " = "Buy  milk" /\ trim "   " = "".
Proof. split; reflexivity. Qed.

(** ** Lookups through the unique index *)

Lemma at_most_one {A} (l : list A) (a : A) :
  NoDup l -> (forall x, x ∈ l -> x = a) -> l = [] \/ l = [a].
Proof.
  intros Hnd Hall. destruct l as [|x [|y l]].
  - now left.
  - right. f_equal. apply Hall. left.
  - exfalso. apply NoDup_cons in Hnd as [Hx _]. apply Hx.
    rewrite (Hall x) by left. rewrite (Hall y) by (right; left). left.
Qed.

Lemma NoDup_List_filter {A} (f : A -> bool) (l : list A) :
  NoDup l -> NoDup (List.filter f l).
Proof.
  induction 1 as [|x l Hx Hl IH]; simpl; [constructor |].
  destruct (f x); [|exact IH].
  constructor; [|exact IH].
  rewrite list_elem_of_In, filter_In, <- list_elem_of_In. tauto.
Qed.

Lemma matches_by_id_and_user i u d :
  matches (by_id_and_user i u) d = true <-> _id d = i /\ user (fields d) = u.
Proof.
  unfold matches; simpl. rewrite !andb_true_r, andb_true_iff, !String.eqb_eq.
  reflexivity.
Qed.

Lemma find_by_id_and_user (s : collection) i u :
  head (List.filter (matches (by_id_and_user i u)) (map_to_list s)) =
  match s !! i with
  | Some t => if String.eqb (user t) u then Some (i, t) else None
  | None => None
  end.
Proof.
  set (l := List.filter _ _).
  assert (Hin : forall x, x ∈ l <-> s !! i = Some (snd x) /\ fst x = i /\ user (snd x) = u).
  { intros [j t]. unfold l. rewrite list_elem_of_In, filter_In, <- list_elem_of_In.
    rewrite elem_of_map_to_list, matches_by_id_and_user. unfold _id, fields; simpl.
    split; [intros (? & -> & ?) | intros (? & -> & ?)]; auto. }
  assert (Hnd : NoDup l) by (apply NoDup_List_filter, NoDup_map_to_list).
  destruct (s !! i) as [t|] eqn:E.
  - destruct (String.eqb (user t) u) eqn:U.
    + apply String.eqb_eq in U.
      destruct (at_most_one l (i, t) Hnd) as [Hl | Hl].
      * intros [j t'] (Ht & Hj & _)%Hin. simpl in *. congruence.
      * exfalso. assert (Hx : (i, t) ∈ l) by (apply Hin; auto).
        rewrite Hl in Hx. inversion Hx.
      * now rewrite Hl.
    + apply String.eqb_neq in U. clearbody l. destruct l as [|[j t'] l']; [reflexivity |].
      exfalso. assert (Hx : (j, t') ∈ (j, t') :: l') by left.
      apply Hin in Hx as (Ht & _ & Hu). simpl in *. congruence.
  - clearbody l. destruct l as [|x l']; [reflexivity |].
    exfalso. assert (Hx : x ∈ x :: l') by left.
    apply Hin in Hx as (Ht & _). discriminate.
Qed.

(** ** Running the handlers *)

Lemma owned_Some s i u t : s !! i = Some t -> user t = u -> owned s i u = Some (i, t).
Proof. intros E <-. unfold owned. now rewrite E, String.eqb_refl. Qed.

Lemma owned_foreign s i u t : s !! i = Some t -> user t <> u -> owned s i u = None.
Proof.
  intros E U. unfold owned. rewrite E.
  destruct (String.eqb (user t) u) eqn:Q; [|reflexivity].
  apply String.eqb_eq in Q. contradiction.
Qed.

Lemma owned_absent s i u : s !! i = None -> owned s i u = None.
Proof. intros E. unfold owned. now rewrite E. Qed.

Section Running.
Context {TM : TaskModel}.

Lemma Task_findOne_owned i u s :
  Task_findOne (mkCriteria (Some i) u None None) s = (Normal (owned s i u), s).
Proof. unfold Task_findOne. f_equal. f_equal. apply find_by_id_and_user. Qed.

Lemma Task_findOneAndDelete_owned i u s :
  Task_findOneAndDelete (mkCriteria (Some i) u None None) s =
  match owned s i u with
  | Some d => (Normal (Some d), delete i s)
  | None => (Normal None, s)
  end.
Proof.
  unfold Task_findOneAndDelete.
  change (mkCriteria (Some i) u None None) with (by_id_and_user i u).
  rewrite find_by_id_and_user. fold (owned s i u).
  unfold owned. destruct (s !! i) as [t|]; [|reflexivity].
  destruct (String.eqb (user t) u); reflexivity.
Qed.

(** A request for a task the caller does not own, or that does not exist,
    is answered 404 by the four single-task routes, and changes nothing. *)
Lemma get_task_unowned req s :
  owned s (params_id req) (user_id req) = None -> get_task req s = (Sent not_found, s).
Proof.
  intros E. unfold get_task, try_catch, bind. now rewrite Task_findOne_owned, E.
Qed.

Lemma put_task_unowned req s :
  owned s (params_id req) (user_id req) = None -> put_task req s = (Sent not_found, s).
Proof.
  intros E. unfold put_task, try_catch, bind. now rewrite Task_findOne_owned, E.
Qed.

Lemma delete_task_unowned req s :
  owned s (params_id req) (user_id req) = None -> delete_task req s = (Sent not_found, s).
Proof.
  intros E. unfold delete_task, try_catch, bind.
  now rewrite Task_findOneAndDelete_owned, E.
Qed.

Lemma toggle_task_unowned req s :
  owned s (params_id req) (user_id req) = None -> toggle_task req s = (Sent not_found, s).
Proof.
  intros E. unfold toggle_task, try_catch, bind. now rewrite Task_findOne_owned, E.
Qed.

Lemma delete_task_owned req s t :
  s !! params_id req = Some t -> user t = user_id req ->
  delete_task req s =
  (Sent (mkResponse 200 true (Some "Task deleted successfully") None NoData),
   delete (params_id req) s).
Proof.
  intros E U. unfold delete_task, try_catch, bind.
  now rewrite Task_findOneAndDelete_owned, (owned_Some _ _ _ _ E U).
Qed.

Lemma toggle_task_owned req s t :
  s !! params_id req = Some t -> user t = user_id req ->
  let t' := set_completed (JBool (negb (truthy (completed t)))) t in
  toggle_task req s =
  if validate t'
  then (Sent (mkResponse 200 true
                (Some ("Task marked as " ++
                       (if negb (truthy (completed t)) then "completed" else "incomplete")))
                None (OneTask (params_id req, t'))),
        <[params_id req := t']> s)
  else (Next ValidationError, s).
Proof.
  intros E U t'. unfold toggle_task, try_catch, bind.
  rewrite Task_findOne_owned, (owned_Some _ _ _ _ E U).
  unfold save, assign, fields, _id; simpl. fold t'.
  destruct (validate t'); reflexivity.
Qed.
End Running.

(** ** Ownership isolation *)

(** C1.  When the task named by the request exists but belongs to another
    user, the get, update, delete and toggle routes all answer 404 with
    [success: false] and leave the collection alone, which is also what
    they answer on any collection that holds no task under that
    identifier. *)
Theorem foreign_task_is_not_found {TM : TaskModel} (req : request) (s : collection) (t : Task) :
  s !! params_id req = Some t ->
  user t <> user_id req ->
  (status not_found = 404%Z /\ success not_found = false) /\
  (get_task req s = (Sent not_found, s) /\
   put_task req s = (Sent not_found, s) /\
   delete_task req s = (Sent not_found, s) /\
   toggle_task req s = (Sent not_found, s)) /\
  (forall s0 : collection, s0 !! params_id req = None ->
     get_task req s0 = (Sent not_found, s0) /\
     put_task req s0 = (Sent not_found, s0) /\
     delete_task req s0 = (Sent not_found, s0) /\
     toggle_task req s0 = (Sent not_found, s0)).
Proof.
  intros E U. split; [split; reflexivity |]. split.
  - pose proof (owned_foreign _ _ _ _ E U) as O.
    auto using get_task_unowned, put_task_unowned, delete_task_unowned, toggle_task_unowned.
  - intros s0 E0. pose proof (owned_absent s0 _ (user_id req) E0) as O.
    auto using get_task_unowned, put_task_unowned, delete_task_unowned, toggle_task_unowned.
Qed.

Lemma foreign_task_is_not_found_witness :
  let req := Sample.on_task "bob" "0" [("title", JStr "mine now"); ("completed", JBool true)] in
  Sample.store !! "0" = Some Sample.milk /\
  put_task (TM := Memory.model) req Sample.store = (Sent not_found, Sample.store) /\
  delete_task req Sample.store = (Sent not_found, Sample.store).
Proof.
  intros req.
  assert (E : Sample.store !! params_id req = Some Sample.milk) by (vm_compute; reflexivity).
  assert (U : user Sample.milk <> user_id req) by (simpl; discriminate).
  destruct (foreign_task_is_not_found (TM := Memory.model) req Sample.store Sample.milk E U)
    as (_ & (_ & Hput & Hdel & _) & _).
  split; [exact E |]. split; assumption.
Defined.

(** ** Delete *)

(** C9.  Deleting an owned task removes it and answers success without a
    data payload; deleting it again answers 404 and leaves the collection
    as the first delete left it. *)
Theorem delete_then_delete (req : request) (s : collection) (t : Task) :
  s !! params_id req = Some t ->
  user t = user_id req ->
  delete_task req s =
    (Sent (mkResponse 200 true (Some "Task deleted successfully") None NoData),
     delete (params_id req) s) /\
  delete (params_id req) s !! params_id req = None /\
  delete_task req (delete (params_id req) s) = (Sent not_found, delete (params_id req) s).
Proof.
  intros E U. split; [now apply (delete_task_owned req s t) |].
  split; [apply lookup_delete_eq |].
  apply delete_task_unowned, owned_absent, lookup_delete_eq.
Qed.

Lemma delete_then_delete_witness :
  let req := Sample.on_task "alice" "0" [] in
  delete_task req Sample.store =
    (Sent (mkResponse 200 true (Some "Task deleted successfully") None NoData),
     delete "0" Sample.store) /\
  delete_task req (delete "0" Sample.store) =
    (Sent not_found, delete "0" Sample.store).
Proof.
  intros req.
  assert (E : Sample.store !! params_id req = Some Sample.milk) by (vm_compute; reflexivity).
  assert (U : user Sample.milk = user_id req) by reflexivity.
  destruct (delete_then_delete req Sample.store Sample.milk E U)
    as (H1 & _ & H2).
  split; assumption.
Defined.

(** ** Toggle *)







(** ** Create *)

Lemma truthy_defined v : truthy v = true -> defined v = true.
Proof. now destruct v. Qed.

Lemma blank_false_truthy x : blank x = false -> truthy (JStr x) = true.
Proof. destruct x; [discriminate | reflexivity]. Qed.

Section Create.
Context {TM : TaskModel}.
Variables (req : request) (s : collection).

Let b_title := prop JUndefined (body req) "title".
Let b_description := prop JUndefined (body req) "description".

Lemma post_task_falsy : truthy b_title = false -> post_task req s = (Sent bad_request, s).
Proof.
  intros F. unfold post_task, try_catch, bind. fold b_title. now rewrite F.
Qed.

Lemma post_task_blank x :
  b_title = JStr x -> blank x = true -> post_task req s = (Sent bad_request, s).
Proof.
  intros T B. unfold post_task, try_catch, bind. fold b_title. rewrite T.
  destruct (truthy (JStr x)); simpl; [|reflexivity].
  unfold blank in B. now rewrite B.
Qed.

Lemma post_task_title_not_string :
  truthy b_title = true -> is_string b_title = false ->
  post_task req s = (Next TypeError, s).
Proof.
  intros T S. unfold post_task, try_catch, bind. fold b_title. rewrite T.
  destruct b_title; try discriminate; reflexivity.
Qed.

Lemma post_task_description_not_string x :
  b_title = JStr x -> blank x = false ->
  truthy b_description = true -> is_string b_description = false ->
  post_task req s = (Next TypeError, s).
Proof.
  intros T B D S. unfold post_task, try_catch, bind. fold b_title b_description.
  rewrite T, (blank_false_truthy x B), D. simpl. unfold blank in B. rewrite B.
  destruct b_description; try discriminate; reflexivity.
Qed.

Lemma post_task_saved x :
  b_title = JStr x -> blank x = false ->
  truthy b_description = false \/ is_string b_description = true ->
  post_task req s = saved_as_new (drafted req x s) s.
Proof.
  intros T B D. unfold post_task, try_catch, bind, saved_as_new, drafted.
  fold b_title b_description.
  rewrite T, (blank_false_truthy x B). simpl. unfold blank in B. rewrite B.
  assert (P : forall v, (if defined (if truthy v then v else JUndefined)
                         then (if truthy v then v else JUndefined)
                         else default_priority)
                        = if truthy v then v else default_priority).
  { intros v. destruct (truthy v) eqn:Tv; [now rewrite truthy_defined | reflexivity]. }
  destruct (truthy b_description) eqn:Td.
  - destruct D as [D | D]; [discriminate |].
    destruct b_description; try discriminate. simpl.
    unfold new_Task, save, fields, _id. simpl.
    destruct (truthy (prop JUndefined (body req) "dueDate")),
             (truthy (prop JUndefined (body req) "priority")) eqn:Tp; simpl;
      rewrite ?(truthy_defined _ Tp); destruct (validate _); reflexivity.
  - simpl. unfold new_Task, save, fields, _id. simpl.
    assert (Dd : match b_description with
                 | JStr d => if false then JStr (trim d) else JUndefined
                 | _ => JUndefined
                 end = JUndefined) by now destruct b_description.
    rewrite Dd.
    destruct (truthy (prop JUndefined (body req) "dueDate")),
             (truthy (prop JUndefined (body req) "priority")) eqn:Tp; simpl;
      rewrite ?(truthy_defined _ Tp); destruct (validate _); reflexivity.
Qed.

(** The five ways the create route can go. *)
Lemma post_task_cases :
  (post_task req s = (Sent bad_request, s) /\
   (truthy b_title = false \/ exists x, b_title = JStr x /\ blank x = true)) \/
  (post_task req s = (Next TypeError, s) /\
   ((truthy b_title = true /\ is_string b_title = false) \/
    (exists x, b_title = JStr x /\ blank x = false /\
               truthy b_description = true /\ is_string b_description = false))) \/
  (exists x, b_title = JStr x /\ blank x = false /\
             (truthy b_description = false \/ is_string b_description = true) /\
             post_task req s = saved_as_new (drafted req x s) s).
Proof.
  destruct (truthy b_title) eqn:T.
  - destruct (is_string b_title) eqn:S.
    + destruct b_title as [| | | |x| | |] eqn:Et; try discriminate.
      destruct (blank x) eqn:B.
      * left. split; [now apply (post_task_blank x) | right; eauto].
      * destruct (truthy b_description) eqn:D; [destruct (is_string b_description) eqn:Sd |].
        -- right; right. exists x. repeat split; auto. apply post_task_saved; auto.
        -- right; left. split.
           ++ now apply (post_task_description_not_string x).
           ++ right. exists x. auto.
        -- right; right. exists x. repeat split; auto. apply post_task_saved; auto.
    + right; left. split; [now apply post_task_title_not_string | now left].
  - left. split; [now apply post_task_falsy | now left].
Qed.
End Create.

(** C2.  Whatever the body holds, a create that answers 201 returns a task
    whose owner is the caller, stored under a new identifier; the body's own
    [user] or [owner] properties are never read. *)
Theorem created_task_belongs_to_caller {TM : TaskModel}
    (req : request) (s s' : collection) (r : response) :
  post_task req s = (Sent r, s') ->
  status r = 201%Z ->
  exists d, data r = OneTask d /\
            user (fields d) = user_id req /\
            s !! _id d = None /\
            s' !! _id d = Some (fields d) /\
            s' = <[_id d := fields d]> s.
Proof.
  intros P S.
  destruct (post_task_cases req s) as [[E _] | [[E _] | (x & _ & _ & _ & E)]];
    rewrite E in P.
  - inversion P; subst. discriminate S.
  - discriminate P.
  - unfold saved_as_new in P. destruct (validate _); [|discriminate P].
    inversion P; subst. exists (drafted req x s).
    split; [reflexivity |]. split; [reflexivity |].
    split; [apply ObjectId_fresh |]. split; [apply lookup_insert_eq | reflexivity].
Qed.

Lemma created_task_belongs_to_caller_witness :
  let req := Sample.on_task "alice" ""
               [("title", JStr " Call Bob "); ("user", JStr "bob"); ("owner", JStr "bob")] in
  exists r s' d,
    post_task (TM := Memory.model) req Sample.store = (Sent r, s') /\
    status r = 201%Z /\ data r = OneTask d /\
    user (fields d) = "alice" /\ s' !! _id d = Some (fields d).
Proof.
  intros req.
  assert (P : post_task (TM := Memory.model) req Sample.store =
              saved_as_new (TM := Memory.model)
                (drafted (TM := Memory.model) req " Call Bob " Sample.store) Sample.store)
    by (vm_compute; reflexivity).
  destruct (created_task_belongs_to_caller (TM := Memory.model) req Sample.store _ _ P eq_refl)
    as (d & D & U & _ & L & _).
  eexists _, _, d. split; [exact P |]. split; [reflexivity |].
  split; [exact D |]. split; [exact U | exact L].
Defined.

(** C4, as amended.  The create route answers 400 exactly when the title is
    falsy (missing, [null], [false], [0] or the empty string) or is a string
    that trims to the empty string.  A 400 comes with [success: false] and
    no data, and leaves the collection alone; any other response is a 201
    with [success: true] and the created task, stored under an identifier
    that was not in use; and when the route raises instead of answering,
    the collection is left alone as well. *)
Theorem create_answers {TM : TaskModel} (req : request) (s : collection) :
  let b_title := prop JUndefined (body req) "title" in
  ((exists r s', post_task req s = (Sent r, s') /\ status r = 400%Z) <->
   (truthy b_title = false \/ exists x, b_title = JStr x /\ trim x = "")) /\
  (forall r s', post_task req s = (Sent r, s') -> status r = 400%Z ->
     success r = false /\ data r = NoData /\ s' = s) /\
  (forall r s', post_task req s = (Sent r, s') -> status r <> 400%Z ->
     status r = 201%Z /\ success r = true /\
     exists d, data r = OneTask d /\ s !! _id d = None /\ s' = <[_id d := fields d]> s) /\
  (forall e s', post_task req s = (Next e, s') -> s' = s).
Proof.
  intros b_title.
  assert (Bl : forall x, blank x = true <-> trim x = "")
    by (intros x; unfold blank; apply String.eqb_eq).
  pose proof (post_task_cases req s) as C. fold b_title in C.
  split; [split | split; [|split]].
  - intros (r & s' & P & S).
    destruct C as [[_ [F | (x & T & B)]] | [[E _] | (x & _ & _ & _ & E)]].
    + now left.
    + right. exists x. split; [exact T | now apply Bl].
    + rewrite E in P. discriminate P.
    + rewrite E in P. unfold saved_as_new in P.
      destruct (validate _); [|discriminate P]. inversion P; subst. discriminate S.
  - intros Hc. exists bad_request, s. split; [|reflexivity].
    destruct Hc as [F | (x & T & B)].
    + now apply post_task_falsy.
    + apply (post_task_blank req s x T). now apply Bl.
  - intros r s' P S.
    destruct C as [[E _] | [[E _] | (x & _ & _ & _ & E)]]; rewrite E in P.
    + inversion P; subst. auto.
    + discriminate P.
    + unfold saved_as_new in P. destruct (validate _); [|discriminate P].
      inversion P; subst. discriminate S.
  - intros r s' P S.
    destruct C as [[E _] | [[E _] | (x & _ & _ & _ & E)]]; rewrite E in P.
    + inversion P; subst. now contradiction S.
    + discriminate P.
    + unfold saved_as_new in P. destruct (validate _); [|discriminate P].
      inversion P; subst. split; [reflexivity |]. split; [reflexivity |].
      exists (drafted req x s). split; [reflexivity |].
      split; [apply ObjectId_fresh | reflexivity].
  - intros e s' P.
    destruct C as [[E _] | [[E _] | (x & _ & _ & _ & E)]]; rewrite E in P.
    + discriminate P.
    + now inversion P.
    + unfold saved_as_new in P. destruct (validate _); [discriminate P | now inversion P].
Qed.

(** C4, as stated, fails for the title [0]: it is there, it is not a string
    that trims to the empty string, and the route still answers 400. *)
Lemma create_zero_title_counterexample :
  let req := Sample.on_task "alice" "" [("title", JNum 0)] in
  post_task (TM := Memory.model) req Sample.store = (Sent bad_request, Sample.store) /\
  status bad_request = 400%Z /\
  body req !! "title" <> None /\
  ~ (exists x, body req !! "title" = Some (JStr x) /\ trim x = "").
Proof.
  intros req. split; [vm_compute; reflexivity |]. split; [reflexivity |].
  assert (E : body req !! "title" = Some (JNum 0)) by (vm_compute; reflexivity).
  rewrite E. split; [discriminate |]. intros (x & Hx & _). discriminate Hx.
Qed.

(** C10.  A title that is truthy but not a string gets past the presence
    check and makes [trim] raise: the route forwards the error to [next],
    so it answers neither 400 nor anything else, and the collection is as
    it was. *)
Theorem create_title_not_a_string {TM : TaskModel} (req : request) (s : collection) :
  truthy (prop JUndefined (body req) "title") = true ->
  is_string (prop JUndefined (body req) "title") = false ->
  post_task req s = (Next TypeError, s) /\
  (forall r s', post_task req s <> (Sent r, s')).
Proof.
  intros T S. pose proof (post_task_title_not_string req s T S) as E.
  split; [exact E |]. intros r s' P. rewrite E in P. discriminate P.
Qed.

Lemma create_title_not_a_string_witness :
  let req := Sample.on_task "alice" "" [("title", JNum 42); ("priority", JStr "high")] in
  post_task (TM := Memory.model) req Sample.store = (Next TypeError, Sample.store).
Proof.
  intros req.
  assert (T : truthy (prop JUndefined (body req) "title") = true) by (vm_compute; reflexivity).
  assert (S : is_string (prop JUndefined (body req) "title") = false)
    by (vm_compute; reflexivity).
  exact (proj1 (create_title_not_a_string (TM := Memory.model) req Sample.store T S)).
Defined.

(** ** Update *)

Section Update.
Context {TM : TaskModel}.
Variables (req : request) (s : collection) (t : Task).
Hypothesis stored : s !! params_id req = Some t.
Hypothesis mine : user t = user_id req.

Let b_title := prop JUndefined (body req) "title".
Let b_description := prop JUndefined (body req) "description".

Lemma put_task_title_raises :
  string_or_missing b_title = false -> put_task req s = (Next TypeError, s).
Proof.
  intros T. unfold put_task, try_catch, bind.
  rewrite Task_findOne_owned, (owned_Some _ _ _ _ stored mine). fold b_title.
  destruct b_title; try discriminate; reflexivity.
Qed.

Lemma put_task_description_raises :
  string_or_missing b_title = true -> string_or_missing b_description = false ->
  put_task req s = (Next TypeError, s).
Proof.
  intros T D. unfold put_task, try_catch, bind.
  rewrite Task_findOne_owned, (owned_Some _ _ _ _ stored mine). fold b_title b_description.
  destruct b_title; try discriminate; destruct b_description; try discriminate; reflexivity.
Qed.

Lemma put_task_saves :
  string_or_missing b_title = true -> string_or_missing b_description = true ->
  put_task req s =
  if validate (revised req t)
  then (Sent (mkResponse 200 true (Some "Task updated successfully") None
                (OneTask (params_id req, revised req t))),
        <[params_id req := revised req t]> s)
  else (Next ValidationError, s).
Proof.
  intros T D. unfold put_task, try_catch, bind, revised.
  rewrite Task_findOne_owned, (owned_Some _ _ _ _ stored mine). fold b_title b_description.
  destruct b_title; try discriminate; destruct b_description; try discriminate;
    simpl; unfold save, assign, fields, _id; simpl;
    destruct (defined (prop JUndefined (body req) "dueDate")),
             (defined (prop JUndefined (body req) "priority")),
             (defined (prop JUndefined (body req) "completed")); simpl;
    destruct t; simpl; destruct (validate _); reflexivity.
Qed.
End Update.

(** C5, as amended.  On an owned task, an update whose title and description
    are each missing or a string replaces exactly the fields the body
    carries: a missing key keeps the stored value; a title or description
    that is there is stored trimmed; a due date that is there is stored as
    the date built from it, or as [null] when it is falsy; a priority or
    completed flag that is there is stored as it is; the owner never
    changes.  The revised task is what the route saves and returns.  A
    title or description that is there but is not a string ([null], say)
    makes the route raise instead, and nothing is replaced. *)
Theorem update_replaces_what_is_given {TM : TaskModel}
    (req : request) (s : collection) (t : Task) :
  s !! params_id req = Some t ->
  user t = user_id req ->
  let given k := prop JUndefined (body req) k in
  (string_or_missing (given "title") && string_or_missing (given "description") = false ->
   put_task req s = (Next TypeError, s)) /\
  (string_or_missing (given "title") && string_or_missing (given "description") = true ->
   exists t',
     (if validate t'
      then put_task req s =
           (Sent (mkResponse 200 true (Some "Task updated successfully") None
                    (OneTask (params_id req, t'))),
            <[params_id req := t']> s)
      else put_task req s = (Next ValidationError, s)) /\
     (given "title" = JUndefined -> title t' = title t) /\
     (forall x, given "title" = JStr x -> title t' = trim x) /\
     (given "description" = JUndefined -> description t' = description t) /\
     (forall x, given "description" = JStr x -> description t' = JStr (trim x)) /\
     (given "dueDate" = JUndefined -> dueDate t' = dueDate t) /\
     (given "dueDate" <> JUndefined ->
      dueDate t' = if truthy (given "dueDate") then JDate (given "dueDate") else JNull) /\
     (given "priority" = JUndefined -> priority t' = priority t) /\
     (given "priority" <> JUndefined -> priority t' = given "priority") /\
     (given "completed" = JUndefined -> completed t' = completed t) /\
     (given "completed" <> JUndefined -> completed t' = given "completed") /\
     user t' = user t).
Proof.
  intros E U given.
  assert (Dn : forall v, v <> JUndefined -> defined v = true)
    by (intros [] G; [now contradiction G | reflexivity ..]).
  split.
  - intros Hs. apply andb_false_iff in Hs as [Hs | Hs].
    + now apply (put_task_title_raises req s t).
    + destruct (string_or_missing (given "title")) eqn:T.
      * now apply (put_task_description_raises req s t).
      * now apply (put_task_title_raises req s t).
  - intros Hs. apply andb_true_iff in Hs as [T D].
    exists (revised req t). split.
    { rewrite (put_task_saves req s t E U T D). now destruct (validate _). }
    unfold revised. fold (given "title") (given "description") (given "dueDate")
                         (given "priority") (given "completed"). simpl.
    repeat split.
    + now intros ->.
    + now intros x ->.
    + now intros ->.
    + now intros x ->.
    + now intros ->.
    + intros G. now rewrite (Dn _ G).
    + now intros ->.
    + intros G. now rewrite (Dn _ G).
    + now intros ->.
    + intros G. now rewrite (Dn _ G).
Qed.

Lemma update_replaces_what_is_given_witness :
  let req := Sample.on_task "alice" "00"
               [("title", JStr "  Write the report "); ("dueDate", JNull);
                ("completed", JBool false)] in
  exists t',
    put_task (TM := Memory.model) req Sample.store =
      (Sent (mkResponse 200 true (Some "Task updated successfully") None (OneTask ("00", t'))),
       <["00" := t']> Sample.store) /\
    title t' = "Write the report" /\ description t' = JStr "quarterly" /\
    dueDate t' = JNull /\ priority t' = JStr "high" /\ completed t' = JBool false.
Proof.
  intros req.
  assert (E : Sample.store !! params_id req = Some Sample.report) by (vm_compute; reflexivity).
  assert (U : user Sample.report = user_id req) by reflexivity.
  destruct (update_replaces_what_is_given (TM := Memory.model) req Sample.store _ E U)
    as [_ Hok].
  destruct (Hok ltac:(vm_compute; reflexivity))
    as (t' & P & _ & Ht & Hd & _ & _ & Hdue & Hp & _ & _ & Hc & _).
  exists t'. split; [exact P |].
  split; [exact (Ht _ ltac:(vm_compute; reflexivity)) |].
  split; [exact (Hd ltac:(vm_compute; reflexivity)) |].
  split; [exact (Hdue ltac:(vm_compute; discriminate)) |].
  split; [exact (Hp ltac:(vm_compute; reflexivity)) |].
  exact (Hc ltac:(vm_compute; discriminate)).
Defined.

(** C5, as stated, fails for a description given as [null]: the key is
    there, yet the route raises and the stored description stays. *)
Lemma update_null_description_counterexample :
  let req := Sample.on_task "alice" "00" [("description", JNull)] in
  body req !! "description" = Some JNull /\
  Sample.store !! "00" = Some Sample.report /\
  put_task (TM := Memory.model) req Sample.store = (Next TypeError, Sample.store) /\
  description Sample.report = JStr "quarterly".
Proof. intros req. repeat split; vm_compute; reflexivity. Qed.

(** ** Titles *)

Lemma titled_insert s i t : titled s -> blank (title t) = false -> titled (<[i := t]> s).
Proof.
  intros Hs Ht j t' E. destruct (decide (i = j)) as [<- | N].
  - rewrite lookup_insert_eq in E. now inversion E; subst.
  - rewrite lookup_insert_ne in E by exact N. now apply (Hs j).
Qed.

Lemma titled_delete s i : titled s -> titled (delete i s).
Proof.
  intros Hs j t E. apply (Hs j).
  destruct (decide (i = j)) as [<- | N].
  - rewrite lookup_delete_eq in E. discriminate E.
  - now rewrite lookup_delete_ne in E.
Qed.

Lemma owned_inv s i u d :
  owned s i u = Some d -> exists t, d = (i, t) /\ s !! i = Some t /\ user t = u.
Proof.
  unfold owned. destruct (s !! i) as [t|]; [|discriminate].
  destruct (String.eqb (user t) u) eqn:Q; [|discriminate].
  intros [= <-]. exists t. apply String.eqb_eq in Q. auto.
Qed.

Lemma owned_cases s i u :
  owned s i u = None \/ exists t, s !! i = Some t /\ user t = u.
Proof.
  destruct (owned s i u) as [d|] eqn:O; [right | now left].
  apply owned_inv in O as (t & _ & E & U). eauto.
Qed.

Section Titles.
Context {TM : TaskModel}.

(** The create route keeps the collection titled. *)
Lemma post_task_titled req s : titled s -> titled (snd (post_task req s)).
Proof.
  intros Hs.
  destruct (post_task_cases req s) as [[E _] | [[E _] | (x & _ & B & _ & E)]];
    rewrite E; try exact Hs.
  unfold saved_as_new. destruct (validate _); [|exact Hs].
  apply titled_insert; [exact Hs |]. simpl. now rewrite blank_trim.
Qed.

(** So does the toggle route, which leaves titles alone. *)
Lemma toggle_task_titled req s : titled s -> titled (snd (toggle_task req s)).
Proof.
  intros Hs. destruct (owned_cases s (params_id req) (user_id req)) as [O | (t & E & U)].
  - now rewrite toggle_task_unowned.
  - rewrite (toggle_task_owned req s t E U). cbv zeta.
    destruct (validate _); [|exact Hs].
    apply titled_insert; [exact Hs |]. now apply (Hs _ _ E).
Qed.

Lemma delete_task_titled req s : titled s -> titled (snd (delete_task req s)).
Proof.
  intros Hs. destruct (owned_cases s (params_id req) (user_id req)) as [O | (t & E & U)].
  - now rewrite delete_task_unowned.
  - rewrite (delete_task_owned req s t E U). now apply titled_delete.
Qed.

(** The update route keeps the collection titled as long as the title it is
    given is not a string that trims to nothing. *)
Lemma put_task_titled req s :
  (forall x, prop JUndefined (body req) "title" = JStr x -> blank x = false) ->
  titled s -> titled (snd (put_task req s)).
Proof.
  intros Hx Hs.
  destruct (owned_cases s (params_id req) (user_id req)) as [O | (t & E & U)].
  - now rewrite put_task_unowned.
  - destruct (string_or_missing (prop JUndefined (body req) "title")) eqn:T.
    + destruct (string_or_missing (prop JUndefined (body req) "description")) eqn:D.
      * rewrite (put_task_saves req s t E U T D).
        destruct (validate _); [|exact Hs].
        apply titled_insert; [exact Hs |]. unfold revised; simpl.
        destruct (prop JUndefined (body req) "title") eqn:Et;
          try (now apply (Hs _ _ E)).
        rewrite blank_trim. now apply Hx.
      * now rewrite (put_task_description_raises req s t E U T D).
    + now rewrite (put_task_title_raises req s t E U T).
Qed.

(** Nothing in the update route stops a blank title: on an owned task, with
    a store that accepts the document, the empty string is what is saved. *)
Lemma put_task_blank_title req s t x :
  s !! params_id req = Some t -> user t = user_id req ->
  prop JUndefined (body req) "title" = JStr x -> blank x = true ->
  string_or_missing (prop JUndefined (body req) "description") = true ->
  validate (revised req t) = true ->
  snd (put_task req s) !! params_id req = Some (revised req t) /\
  title (revised req t) = "".
Proof.
  intros E U T B D V.
  rewrite (put_task_saves req s t E U); [|now rewrite T | exact D].
  rewrite V. simpl. split; [apply lookup_insert_eq |].
  unfold revised. simpl. rewrite T. now apply String.eqb_eq.
Qed.
End Titles.

(** With the in-memory store that accepts every document, an update of an
    owned task with the title ["   "] answers 200 and stores the task with
    the empty title: the guard is in the store or nowhere. *)
Lemma update_blank_title_is_stored :
  let req := Sample.on_task "alice" "0" [("title", JStr "   ")] in
  titled Sample.store /\
  put_task (TM := Memory.model) req Sample.store =
    (Sent (mkResponse 200 true (Some "Task updated successfully") None
             (OneTask ("0", set_title "" Sample.milk))),
     <["0" := set_title "" Sample.milk]> Sample.store) /\
  ~ titled (<["0" := set_title "" Sample.milk]> Sample.store).
Proof.
  intros req. split; [|split].
  - intros i t E.
    destruct (decide (i = "0")) as [-> | N0]; [now inversion E |].
    destruct (decide (i = "00")) as [-> | N1]; [now inversion E |].
    destruct (decide (i = "000")) as [-> | N2]; [now inversion E |].
    unfold Sample.store in E.
    rewrite !lookup_insert_ne, lookup_empty in E by congruence. discriminate E.
  - vm_compute. reflexivity.
  - intros Ht. specialize (Ht "0" _ (lookup_insert_eq _ _ _)). discriminate Ht.
Qed.

(** ** List *)

Lemma priority_is p (v : jsval) :
  match v with JStr s => String.eqb s p | _ => false end = true <-> v = JStr p.
Proof.
  destruct v; try (split; [discriminate | intros [=]]).
  rewrite String.eqb_eq. split; [now intros -> | now intros [= ->]].
Qed.

Lemma completed_is b (v : jsval) :
  match v with JBool b' => Bool.eqb b' b | _ => false end = true <-> v = JBool b.
Proof.
  destruct v; try (split; [discriminate | intros [=]]).
  rewrite Bool.eqb_true_iff. split; [now intros -> | now intros [= ->]].
Qed.

Section Listing.
Context {TM : TaskModel}.

(** The list route answers 200 with the caller's tasks the query admits,
    each once, in the order [sort] puts them. *)
Lemma get_tasks_members (req : request) (s : collection) :
  exists ds,
    get_tasks req s = (Sent (mkResponse 200 true None (Some (length ds)) (Tasks ds)), s) /\
    NoDup ds /\
    forall i t, (i, t) ∈ ds <->
                s !! i = Some t /\ user t = user_id req /\
                priority_admits (query req !! "priority") t /\
                completed_admits (query req !! "completed") t.
Proof.
  unfold get_tasks, try_catch, bind, Task_find, ret.
  set (c := match query req !! "completed" with Some _ => _ | None => _ end).
  set (o := (default "createdAt" (query req !! "sortBy"), _)).
  exists (sort o (List.filter (matches c) (map_to_list s))).
  split; [reflexivity |]. split.
  - rewrite sort_Permutation. apply NoDup_List_filter, NoDup_map_to_list.
  - intros i t. rewrite sort_Permutation.
    rewrite list_elem_of_In, filter_In, <- list_elem_of_In, elem_of_map_to_list.
    assert (M : matches c (i, t) = true <->
                user t = user_id req /\
                priority_admits (query req !! "priority") t /\
                completed_admits (query req !! "completed") t); [|tauto].
    unfold c, matches, priority_admits, completed_admits, fields. simpl.
    destruct (query req !! "priority") as [p|], (query req !! "completed") as [v|]; simpl;
      try destruct (String.eqb p ""); try destruct (String.eqb p "all");
      try destruct (String.eqb v "all"); simpl;
      rewrite ?andb_true_iff, ?andb_true_r, ?String.eqb_eq, ?priority_is, ?completed_is;
      tauto.
Qed.
End Listing.

(** C6, as amended.  The list route answers with the caller's tasks that
    pass the priority part of the query and, when [completed] is missing or ["all"],
    with no condition on the flag; otherwise with exactly those among them
    whose flag is the boolean [completed === "true"].  With no priority in
    the query these are all the caller's tasks in the first case and exactly
    the caller's tasks with that flag in the second. *)
Theorem list_filters_on_completed {TM : TaskModel} (req : request) (s : collection) :
  exists ds,
    get_tasks req s = (Sent (mkResponse 200 true None (Some (length ds)) (Tasks ds)), s) /\
    NoDup ds /\
    (forall i t,
       (i, t) ∈ ds <->
       (s !! i = Some t /\ user t = user_id req /\
        priority_admits (query req !! "priority") t) /\
       match query req !! "completed" with
       | None => True
       | Some v => v = "all" \/ completed t = JBool (String.eqb v "true")
       end) /\
    (query req !! "priority" = None ->
     forall i t,
       (i, t) ∈ ds <->
       s !! i = Some t /\ user t = user_id req /\
       match query req !! "completed" with
       | None => True
       | Some v => v = "all" \/ completed t = JBool (String.eqb v "true")
       end).
Proof.
  destruct (get_tasks_members req s) as (ds & E & N & M).
  exists ds. split; [exact E |]. split; [exact N |].
  assert (C : forall t, completed_admits (query req !! "completed") t <->
                        match query req !! "completed" with
                        | None => True
                        | Some v => v = "all" \/ completed t = JBool (String.eqb v "true")
                        end).
  { intros t. unfold completed_admits. destruct (query req !! "completed") as [v|]; [|tauto].
    destruct (String.eqb v "all") eqn:Q.
    - apply String.eqb_eq in Q. tauto.
    - apply String.eqb_neq in Q. tauto. }
  split.
  - intros i t. rewrite M, C. tauto.
  - intros P i t. rewrite M, C, P. simpl. tauto.
Qed.

(** C6, as stated, fails for a query that carries a priority as well: with
    [priority=high&completed=false] the answer is empty, although the caller
    owns a task whose flag is [false]. *)
Lemma list_priority_and_completed_counterexample :
  let req := Sample.listing "alice" [("priority", "high"); ("completed", "false")] in
  query req !! "completed" = Some "false" /\
  get_tasks (TM := Memory.model) req Sample.store =
    (Sent (mkResponse 200 true None (Some 0%nat) (Tasks [])), Sample.store) /\
  Sample.store !! "0" = Some Sample.milk /\
  user Sample.milk = user_id req /\
  completed Sample.milk = JBool (String.eqb "false" "true") /\
  ("0", Sample.milk) ∉ ([] : list document).
Proof.
  intros req. split; [vm_compute; reflexivity |]. split; [vm_compute; reflexivity |].
  split; [vm_compute; reflexivity |]. split; [reflexivity |]. split; [reflexivity |].
  apply not_elem_of_nil.
Qed.

(** C7, as amended.  When [priority] is missing, empty or ["all"], the list
    route puts no condition on the priority; for any other value it answers
    with exactly those of the caller's tasks passing the completed part of
    the query whose priority is that value. *)
Theorem list_filters_on_priority {TM : TaskModel} (req : request) (s : collection) :
  exists ds,
    get_tasks req s = (Sent (mkResponse 200 true None (Some (length ds)) (Tasks ds)), s) /\
    NoDup ds /\
    (forall i t,
       (i, t) ∈ ds <->
       (s !! i = Some t /\ user t = user_id req /\
        completed_admits (query req !! "completed") t) /\
       match query req !! "priority" with
       | None => True
       | Some p => p = "" \/ p = "all" \/ priority t = JStr p
       end) /\
    (query req !! "completed" = None ->
     forall i t,
       (i, t) ∈ ds <->
       s !! i = Some t /\ user t = user_id req /\
       match query req !! "priority" with
       | None => True
       | Some p => p = "" \/ p = "all" \/ priority t = JStr p
       end).
Proof.
  destruct (get_tasks_members req s) as (ds & E & N & M).
  exists ds. split; [exact E |]. split; [exact N |].
  assert (C : forall t, priority_admits (query req !! "priority") t <->
                        match query req !! "priority" with
                        | None => True
                        | Some p => p = "" \/ p = "all" \/ priority t = JStr p
                        end).
  { intros t. unfold priority_admits. destruct (query req !! "priority") as [p|]; [|tauto].
    destruct (String.eqb p "") eqn:Q1; [apply String.eqb_eq in Q1; simpl; tauto |].
    destruct (String.eqb p "all") eqn:Q2; [apply String.eqb_eq in Q2; simpl; tauto |].
    apply String.eqb_neq in Q1, Q2. simpl. tauto. }
  split.
  - intros i t. rewrite M, C. tauto.
  - intros P i t. rewrite M, C, P. simpl. tauto.
Qed.

(** C7, as stated, fails for [priority=] (the empty string): it is there and
    is not ["all"], yet the answer holds tasks whose priority is not the
    empty string. *)
Lemma list_empty_priority_counterexample :
  let req := Sample.listing "alice" [("priority", "")] in
  query req !! "priority" = Some "" /\
  get_tasks (TM := Memory.model) req Sample.store =
    (Sent (mkResponse 200 true None (Some 2%nat)
             (Tasks [("00", Sample.report); ("0", Sample.milk)])),
     Sample.store) /\
  priority Sample.report <> JStr "".
Proof.
  intros req. split; [vm_compute; reflexivity |].
  split; [vm_compute; reflexivity | discriminate].
Qed.

(** ** The scenarios of the specification, on the in-memory store *)

Example create_buy_milk :
  let req := Sample.on_task "carol" "" [("title", JStr "Buy milk")] in
  fst (post_task (TM := Memory.model) req Sample.store) =
  Sent (mkResponse 201 true (Some "Task created successfully") None
          (OneTask ("0000", mkTask "Buy milk" JUndefined JUndefined (JStr "medium")
                                   (JBool false) "carol"))).
Proof. vm_compute. reflexivity. Qed.

Example create_blank_title :
  let req := Sample.on_task "carol" "" [("title", JStr "  ")] in
  post_task (TM := Memory.model) req Sample.store = (Sent bad_request, Sample.store).
Proof. vm_compute. reflexivity. Qed.

Example put_completed :
  let req := Sample.on_task "alice" "0" [("completed", JBool true)] in
  fst (put_task (TM := Memory.model) req Sample.store) =
  Sent (mkResponse 200 true (Some "Task updated successfully") None
          (OneTask ("0", set_completed (JBool true) Sample.milk))).
Proof. vm_compute. reflexivity. Qed.

Example toggle_completed_task :
  let req := Sample.on_task "alice" "00" [] in
  fst (toggle_task (TM := Memory.model) req Sample.store) =
  Sent (mkResponse 200 true (Some "Task marked as incomplete") None
          (OneTask ("00", set_completed (JBool false) Sample.report))).
Proof. vm_compute. reflexivity. Qed.

Example delete_nothing :
  delete_task (Sample.on_task "alice" "7" []) Sample.store = (Sent not_found, Sample.store).
Proof. vm_compute. reflexivity. Qed.

Example list_without_query :
  fst (get_tasks (TM := Memory.model) (Sample.listing "alice" []) Sample.store) =
  Sent (mkResponse 200 true None (Some 2%nat)
          (Tasks [("00", Sample.report); ("0", Sample.milk)])).
Proof. vm_compute. reflexivity. Qed.

Example list_completed_true :
  fst (get_tasks (TM := Memory.model)
         (Sample.listing "alice" [("completed", "true"); ("order", "asc")]) Sample.store) =
  Sent (mkResponse 200 true None (Some 1%nat) (Tasks [("00", Sample.report)])).
Proof. vm_compute. reflexivity. Qed.

Example list_completed_other :
  fst (get_tasks (TM := Memory.model)
         (Sample.listing "alice" [("completed", "yes")]) Sample.store) =
  Sent (mkResponse 200 true None (Some 1%nat) (Tasks [("0", Sample.milk)])).
Proof. vm_compute. reflexivity. Qed.

Example list_priority_high :
  fst (get_tasks (TM := Memory.model)
         (Sample.listing "bob" [("priority", "high")]) Sample.store) =
  Sent (mkResponse 200 true None (Some 1%nat) (Tasks [("000", Sample.taxes)])).
Proof. vm_compute. reflexivity. Qed.


(** ** Every route at once *)

Section Outcomes.
Context {TM : TaskModel}.

Lemma get_task_owned req s t :
  s !! params_id req = Some t -> user t = user_id req ->
  get_task req s = (Sent (mkResponse 200 true None None (OneTask (params_id req, t))), s).
Proof.
  intros E U. unfold get_task, try_catch, bind.
  now rewrite Task_findOne_owned, (owned_Some _ _ _ _ E U).
Qed.

(** The three ways an update of an owned task can go. *)
Lemma put_task_cases req s t :
  s !! params_id req = Some t -> user t = user_id req ->
  put_task req s = (Next TypeError, s) \/
  put_task req s = (Next ValidationError, s) \/
  (validate (revised req t) = true /\
   string_or_missing (prop JUndefined (body req) "title") = true /\
   string_or_missing (prop JUndefined (body req) "description") = true /\
   put_task req s =
   (Sent (mkResponse 200 true (Some "Task updated successfully") None
            (OneTask (params_id req, revised req t))),
    <[params_id req := revised req t]> s)).
Proof.
  intros E U.
  destruct (string_or_missing (prop JUndefined (body req) "title")) eqn:T.
  - destruct (string_or_missing (prop JUndefined (body req) "description")) eqn:D.
    + rewrite (put_task_saves req s t E U T D).
      destruct (validate (revised req t)); [right; right; auto | right; left; auto].
    + left. now apply (put_task_description_raises req s t).
  - left. now apply (put_task_title_raises req s t).
Qed.

(** What a route can answer and what it can have done to the collection by
    then. *)
Lemma handle_outcome (r : route) (req : request) (s : collection) :
  match handle r req s with
  | (Next e, s') => s' = s /\ (r = POST_task \/ r = PUT_task \/ r = PATCH_toggle)
  | (Sent resp, s') =>
      (resp = not_found /\ s' = s /\ names_a_task r = true /\
       owned s (params_id req) (user_id req) = None) \/
      (resp = bad_request /\ s' = s /\ r = POST_task) \/
      (status resp = 201%Z /\ success resp = true /\ r = POST_task /\
       exists t, data resp = OneTask (ObjectId s, t) /\ user t = user_id req /\
                 s' = <[ObjectId s := t]> s) \/
      (status resp = 200%Z /\ success resp = true /\ r = GET_tasks /\ s' = s /\
       exists ds, data resp = Tasks ds /\ count resp = Some (length ds)) \/
      (status resp = 200%Z /\ success resp = true /\ r = GET_task /\ s' = s /\
       exists t, s !! params_id req = Some t /\ user t = user_id req /\
                 data resp = OneTask (params_id req, t)) \/
      (status resp = 200%Z /\ success resp = true /\ (r = PUT_task \/ r = PATCH_toggle) /\
       exists t t', s !! params_id req = Some t /\ user t = user_id req /\
                    user t' = user_id req /\ data resp = OneTask (params_id req, t') /\
                    s' = <[params_id req := t']> s) \/
      (status resp = 200%Z /\ success resp = true /\ r = DELETE_task /\
       data resp = NoData /\
       exists t, s !! params_id req = Some t /\ user t = user_id req /\
                 s' = delete (params_id req) s)
  end.
Proof.
  destruct r; cbn [handle names_a_task].
  - destruct (get_tasks_members req s) as (ds & -> & _).
    do 3 right. left. repeat split; eauto.
  - destruct (owned_cases s (params_id req) (user_id req)) as [O | (t & E & U)].
    + rewrite (get_task_unowned req s O). left. auto.
    + rewrite (get_task_owned req s t E U). do 4 right. left. repeat split; eauto.
  - destruct (post_task_cases req s) as [[-> _] | [[-> _] | (x & _ & _ & _ & ->)]].
    + right. left. auto.
    + auto.
    + unfold saved_as_new. destruct (validate _); [|auto].
      do 2 right. left. repeat split; eauto.
  - destruct (owned_cases s (params_id req) (user_id req)) as [O | (t & E & U)].
    + rewrite (put_task_unowned req s O). left. auto.
    + destruct (put_task_cases req s t E U) as [-> | [-> | (_ & _ & _ & ->)]]; auto.
      do 5 right. left. repeat split; auto.
      exists t, (revised req t). repeat split; auto.
  - destruct (owned_cases s (params_id req) (user_id req)) as [O | (t & E & U)].
    + rewrite (delete_task_unowned req s O). left. auto.
    + rewrite (delete_task_owned req s t E U). do 6 right. repeat split; eauto.
  - destruct (owned_cases s (params_id req) (user_id req)) as [O | (t & E & U)].
    + rewrite (toggle_task_unowned req s O). left. auto.
    + rewrite (toggle_task_owned req s t E U). cbv zeta.
      destruct (validate _); [|auto].
      do 5 right. left. repeat split; auto.
      eexists t, _. repeat split; eauto.
Qed.

(** Whatever a route does to the collection is one change to a document of
    the caller. *)
Lemma handle_change (r : route) (req : request) (s : collection) :
  change (user_id req) s (snd (handle r req s)).
Proof.
  pose proof (handle_outcome r req s) as O.
  destruct (handle r req s) as [[resp | e] s']; simpl.
  - destruct O as [(_ & -> & _) | [(_ & -> & _) | [(_ & _ & _ & t & _ & U & ->) |
      [(_ & _ & _ & -> & _) | [(_ & _ & _ & -> & _) |
      [(_ & _ & _ & t & t' & E & U & U' & _ & ->) | (_ & _ & _ & _ & t & E & U & ->)]]]]]].
    + constructor.
    + constructor.
    + apply inserted; [apply ObjectId_fresh | exact U].
    + constructor.
    + constructor.
    + now apply (replaced _ _ _ t t').
    + now apply (removed _ _ _ t).
  - destruct O as [-> _]. constructor.
Qed.
End Outcomes.

Lemma change_foreign u (s s' : collection) i t :
  change u s s' -> s !! i = Some t -> user t <> u -> s' !! i = Some t.
Proof.
  intros C E U. destruct C as [| j tj Ej Uj | j tj tj' Ej Uj Uj' | j tj Ej Uj].
  - exact E.
  - rewrite lookup_insert_ne; [exact E | congruence].
  - rewrite lookup_insert_ne; [exact E | congruence].
  - rewrite lookup_delete_ne; [exact E | congruence].
Qed.

Lemma change_owner u (s s' : collection) i t t' :
  change u s s' -> s !! i = Some t -> s' !! i = Some t' -> user t' = user t.
Proof.
  intros C E E'. destruct C as [| j tj Ej Uj | j tj tj' Ej Uj Uj' | j tj Ej Uj].
  - congruence.
  - rewrite lookup_insert_ne in E' by congruence. congruence.
  - destruct (decide (j = i)) as [-> | N].
    + rewrite lookup_insert_eq in E'. congruence.
    + rewrite lookup_insert_ne in E' by exact N. congruence.
  - destruct (decide (j = i)) as [-> | N].
    + rewrite lookup_delete_eq in E'. discriminate E'.
    + rewrite lookup_delete_ne in E' by exact N. congruence.
Qed.

(** ** Isolation between users *)

(** X1.  No route, called by whom and with what request it may be, changes
    or removes a task that belongs to another user. *)
Theorem other_users_tasks_stay {TM : TaskModel}
    (r : route) (req : request) (s : collection) (i : string) (t : Task) :
  s !! i = Some t ->
  user t <> user_id req ->
  snd (handle r req s) !! i = Some t.
Proof.
  intros E U. exact (change_foreign _ _ _ _ _ (handle_change r req s) E U).
Qed.

Lemma other_users_tasks_stay_witness :
  let req := Sample.on_task "alice" "000"
               [("title", JStr "Mine"); ("completed", JBool true)] in
  snd (handle (TM := Memory.model) PUT_task req Sample.store) !! "000" = Some Sample.taxes /\
  snd (handle (TM := Memory.model) DELETE_task req Sample.store) !! "000" = Some Sample.taxes /\
  snd (handle (TM := Memory.model) POST_task req Sample.store) !! "000" = Some Sample.taxes.
Proof.
  intros req.
  assert (E : Sample.store !! "000" = Some Sample.taxes) by (vm_compute; reflexivity).
  assert (U : user Sample.taxes <> user_id req) by (simpl; discriminate).
  split; [|split];
    exact (other_users_tasks_stay (TM := Memory.model) _ req Sample.store "000" _ E U).
Defined.

(** X2.  The owner of a task is never rewritten: a task that is in the
    collection before and after a route has run has the owner it had. *)
Theorem owner_never_changes {TM : TaskModel}
    (r : route) (req : request) (s : collection) (i : string) (t t' : Task) :
  s !! i = Some t ->
  snd (handle r req s) !! i = Some t' ->
  user t' = user t.
Proof.
  intros E E'. exact (change_owner _ _ _ _ _ _ (handle_change r req s) E E').
Qed.

Lemma owner_never_changes_witness :
  let req := Sample.on_task "alice" "0"
               [("title", JStr "Milk"); ("user", JStr "bob"); ("owner", JStr "bob")] in
  exists t', snd (handle (TM := Memory.model) PUT_task req Sample.store) !! "0" = Some t' /\
             title t' = "Milk" /\ user t' = "alice".
Proof.
  intros req.
  assert (E : Sample.store !! "0" = Some Sample.milk) by (vm_compute; reflexivity).
  assert (E' : snd (handle (TM := Memory.model) PUT_task req Sample.store) !! "0" =
               Some (set_title "Milk" Sample.milk)) by (vm_compute; reflexivity).
  exists (set_title "Milk" Sample.milk). split; [exact E' |]. split; [reflexivity |].
  exact (owner_never_changes (TM := Memory.model) PUT_task req Sample.store "0" _ _ E E').
Defined.

(** ** What a route may touch *)

(** X3.  The two reading routes leave the collection as it is; a route that
    names a task touches no document but the one it names; the create route
    leaves every document that is there as it is. *)
Theorem routes_touch_one_document {TM : TaskModel}
    (r : route) (req : request) (s : collection) :
  (r = GET_tasks \/ r = GET_task -> snd (handle r req s) = s) /\
  (names_a_task r = true ->
   forall j, j <> params_id req -> snd (handle r req s) !! j = s !! j) /\
  (r = POST_task ->
   forall j t, s !! j = Some t -> snd (handle r req s) !! j = Some t).
Proof.
  pose proof (handle_outcome r req s) as O.
  destruct (handle r req s) as [[resp | e] s']; simpl.
  - destruct O as [(_ & -> & _) | [(_ & -> & _) | [(_ & _ & R & t & _ & U & ->) |
      [(_ & _ & _ & -> & _) | [(_ & _ & _ & -> & _) |
      [(_ & _ & R & t & t' & E & U & U' & _ & ->) | (_ & _ & R & _ & t & E & U & ->)]]]]]];
      try (split; [|split]; intros; reflexivity || assumption).
    + split; [intros [? | ?]; congruence |]. split; [subst r; discriminate |].
      intros _ j tj Ej. rewrite lookup_insert_ne; [exact Ej |].
      intros <-. rewrite ObjectId_fresh in Ej. discriminate Ej.
    + split; [intros [? | ?]; destruct R; congruence |].
      split; [|destruct R; congruence].
      intros _ j N. now rewrite lookup_insert_ne.
    + split; [intros [? | ?]; congruence |]. split; [|congruence].
      intros _ j N. now rewrite lookup_delete_ne.
  - destruct O as [-> _]. split; [|split]; intros; reflexivity || assumption.
Qed.

(** X4.  A route that raises, or that answers with [success: false], has
    written nothing. *)
Theorem failure_changes_nothing {TM : TaskModel}
    (r : route) (req : request) (s : collection) :
  (forall e s', handle r req s = (Next e, s') -> s' = s) /\
  (forall resp s', handle r req s = (Sent resp, s') -> success resp = false -> s' = s).
Proof.
  pose proof (handle_outcome r req s) as O. split.
  - intros e s' P. rewrite P in O. now destruct O.
  - intros resp s' P F. rewrite P in O.
    destruct O as [(_ & -> & _) | [(_ & -> & _) | [(_ & S & _) |
      [(_ & S & _) | [(_ & S & _) | [(_ & S & _) | (_ & S & _)]]]]]];
      try reflexivity; congruence.
Qed.

(** X5.  The answers a route can send: 200 with [success: true] from every
    route but the create route, 201 with [success: true] and the created
    task from the create route only, the 400 of the missing title from the
    create route only, and the 404 from the routes that name a task only.
    The two failures carry no data. *)
Theorem answers_by_route {TM : TaskModel}
    (r : route) (req : request) (s s' : collection) (resp : response) :
  handle r req s = (Sent resp, s') ->
  (status resp = 200%Z /\ success resp = true /\ r <> POST_task) \/
  (status resp = 201%Z /\ success resp = true /\ r = POST_task /\
   exists d, data resp = OneTask d) \/
  (status resp = 400%Z /\ success resp = false /\ r = POST_task /\ data resp = NoData) \/
  (status resp = 404%Z /\ success resp = false /\ names_a_task r = true /\
   data resp = NoData).
Proof.
  intros P. pose proof (handle_outcome r req s) as O. rewrite P in O.
  destruct O as [(-> & _ & N & _) | [(-> & _ & R) | [(S & T & R & t & D & _) |
    [(S & T & R & _) | [(S & T & R & _) | [(S & T & R & _) | (S & T & R & _)]]]]]].
  - do 3 right. auto.
  - do 2 right. left. auto.
  - right. left. repeat split; eauto.
  - left. repeat split; auto. congruence.
  - left. repeat split; auto. congruence.
  - left. repeat split; auto. destruct R; congruence.
  - left. repeat split; auto. congruence.
Qed.

Lemma answers_by_route_witness :
  let req := Sample.on_task "bob" "0" [] in
  (status not_found = 200%Z /\ success not_found = true /\ PATCH_toggle <> POST_task) \/
  (status not_found = 201%Z /\ success not_found = true /\ PATCH_toggle = POST_task /\
   exists d, data not_found = OneTask d) \/
  (status not_found = 400%Z /\ success not_found = false /\ PATCH_toggle = POST_task /\
   data not_found = NoData) \/
  (status not_found = 404%Z /\ success not_found = false /\
   names_a_task PATCH_toggle = true /\ data not_found = NoData).
Proof.
  intros req.
  assert (P : handle (TM := Memory.model) PATCH_toggle req Sample.store =
              (Sent not_found, Sample.store)) by (vm_compute; reflexivity).
  exact (answers_by_route (TM := Memory.model) _ _ _ _ _ P).
Defined.

(** ** The single-task routes *)

(** X6.  A route that names a task answers 404 exactly when the caller owns
    no task under that identifier. *)
Theorem not_found_iff_unowned {TM : TaskModel}
    (r : route) (req : request) (s : collection) :
  names_a_task r = true ->
  (exists resp s', handle r req s = (Sent resp, s') /\ status resp = 404%Z) <->
  ~ (exists t, s !! params_id req = Some t /\ user t = user_id req).
Proof.
  intros N. split.
  - intros (resp & s' & P & S) (t & E & U).
    pose proof (handle_outcome r req s) as O. rewrite P in O.
    destruct O as [(_ & _ & _ & O) | [(-> & _) | [(S' & _) |
      [(S' & _) | [(S' & _) | [(S' & _) | (S' & _)]]]]]];
      try (rewrite S' in S; discriminate S); try discriminate S.
    rewrite (owned_Some _ _ _ _ E U) in O. discriminate O.
  - intros Hn. exists not_found, s. split; [|reflexivity].
    destruct (owned_cases s (params_id req) (user_id req)) as [O | Ho];
      [|contradiction].
    destruct r; try discriminate N; cbn [handle].
    + now apply get_task_unowned.
    + now apply put_task_unowned.
    + now apply delete_task_unowned.
    + now apply toggle_task_unowned.
Qed.

Lemma not_found_iff_unowned_witness :
  let req := Sample.on_task "alice" "000" [] in
  (exists resp s', handle (TM := Memory.model) PATCH_toggle req Sample.store = (Sent resp, s') /\
                   status resp = 404%Z) <->
  ~ (exists t, Sample.store !! "000" = Some t /\ user t = "alice").
Proof.
  intros req.
  exact (not_found_iff_unowned (TM := Memory.model) PATCH_toggle req Sample.store eq_refl).
Defined.

(** X7.  The get route answers 200 with a document exactly when that
    document is stored under the requested identifier and belongs to the
    caller; it never changes the collection. *)
Theorem get_task_answers (req : request) (s : collection) (d : document) :
  (exists resp, get_task req s = (Sent resp, s) /\ status resp = 200%Z /\
                data resp = OneTask d) <->
  (_id d = params_id req /\ s !! _id d = Some (fields d) /\
   user (fields d) = user_id req).
Proof.
  destruct d as [i t]. unfold _id, fields; simpl. split.
  - intros (resp & P & S & D).
    destruct (owned_cases s (params_id req) (user_id req)) as [O | (t0 & E & U)].
    + rewrite (get_task_unowned req s O) in P. inversion P; subst. discriminate S.
    + rewrite (get_task_owned req s t0 E U) in P. inversion P; subst.
      simpl in D. inversion D; subst. auto.
  - intros (-> & E & U). eexists. split; [apply (get_task_owned req s t E U) |].
    split; reflexivity.
Qed.

(** X8.  How the set of stored identifiers moves: a 201 adds exactly one
    identifier that was not in use, a 200 of the delete route takes away
    exactly the requested one, and every other answer leaves the set of
    identifiers as it was. *)
Theorem documents_accounted {TM : TaskModel}
    (r : route) (req : request) (s s' : collection) (resp : response) :
  handle r req s = (Sent resp, s') ->
  (status resp = 201%Z ->
   exists i, (i ∉ dom s) /\ dom s' = {[i]} ∪ dom s /\ size s' = S (size s)) /\
  (r = DELETE_task -> status resp = 200%Z ->
   params_id req ∈ dom s /\ dom s' = dom s ∖ {[params_id req]} /\
   size s = S (size s')) /\
  (status resp <> 201%Z -> ~ (r = DELETE_task /\ status resp = 200%Z) ->
   dom s' = dom s /\ size s' = size s).
Proof.
  intros P. pose proof (handle_outcome r req s) as O. rewrite P in O.
  destruct O as [(-> & -> & _) | [(-> & -> & _) | [(S & _ & R & t & _ & U & ->) |
    [(S & _ & R & -> & _) | [(S & _ & R & -> & _) |
    [(S & _ & R & t & t' & E & U & U' & _ & ->) | (S & _ & R & _ & t & E & U & ->)]]]]]].
  - split; [discriminate |]. split; [discriminate | auto].
  - split; [discriminate |]. split; [discriminate | auto].
  - split; [|split; [congruence | congruence]].
    intros _. exists (ObjectId s). split; [apply not_elem_of_dom, ObjectId_fresh |].
    split; [apply dom_insert_L | apply map_size_insert_None, ObjectId_fresh].
  - split; [congruence |]. split; [congruence | auto].
  - split; [congruence |]. split; [congruence | auto].
  - split; [congruence |]. split; [destruct R; congruence |].
    intros _ _. split; [apply dom_insert_lookup_L | apply map_size_insert_Some]; eauto.
  - split; [congruence |]. split.
    + intros _ _. split; [apply elem_of_dom; eauto |]. split; [apply dom_delete_L |].
      rewrite <- (insert_id s (params_id req) t E) at 1.
      rewrite <- insert_delete_eq. apply map_size_insert_None, lookup_delete_eq.
    + intros _ Hn. exfalso. apply Hn. auto.
Qed.

Lemma documents_accounted_witness :
  let req := Sample.on_task "alice" "0" [] in
  "0" ∈ dom Sample.store /\
  dom (delete "0" Sample.store) = dom Sample.store ∖ {["0"]} /\
  size Sample.store = S (size (delete "0" Sample.store)).
Proof.
  intros req.
  assert (P : handle (TM := Memory.model) DELETE_task req Sample.store =
              (Sent (mkResponse 200 true (Some "Task deleted successfully") None NoData),
               delete "0" Sample.store)) by (vm_compute; reflexivity).
  exact (proj1 (proj2 (documents_accounted (TM := Memory.model) _ _ _ _ _ P))
           eq_refl eq_refl).
Defined.

(** ** Update, again *)

Lemma revised_twice req t : revised req (revised req t) = revised req t.
Proof.
  unfold revised; simpl.
  destruct (prop JUndefined (body req) "title"),
           (prop JUndefined (body req) "description"),
           (defined (prop JUndefined (body req) "dueDate")),
           (defined (prop JUndefined (body req) "priority")),
           (defined (prop JUndefined (body req) "completed")); reflexivity.
Qed.

(** X9.  An update that answered 200 can be sent again: the second answer is
    the first one and the collection stays as the first update left it; and
    the get route then returns the task the update returned. *)
Theorem update_twice {TM : TaskModel}
    (req : request) (s s' : collection) (resp : response) :
  put_task req s = (Sent resp, s') ->
  status resp = 200%Z ->
  put_task req s' = (Sent resp, s') /\
  get_task req s' = (Sent (mkResponse 200 true None None (data resp)), s').
Proof.
  intros P S.
  destruct (owned_cases s (params_id req) (user_id req)) as [O | (t & E & U)].
  { rewrite (put_task_unowned req s O) in P. inversion P; subst. discriminate S. }
  destruct (put_task_cases req s t E U) as [Q | [Q | (V & T & D & Q)]];
    rewrite Q in P; try discriminate P.
  inversion P; subst. clear P.
  assert (E' : <[params_id req := revised req t]> s !! params_id req =
               Some (revised req t)) by apply lookup_insert_eq.
  assert (U' : user (revised req t) = user_id req) by exact U.
  split.
  - rewrite (put_task_saves req _ _ E' U' T D), revised_twice, V.
    now rewrite insert_insert_eq.
  - apply (get_task_owned req _ _ E' U').
Qed.

Lemma update_twice_witness :
  let req := Sample.on_task "alice" "0"
               [("title", JStr " Buy oat milk "); ("priority", JStr "low")] in
  let t' := set_priority (JStr "low") (set_title "Buy oat milk" Sample.milk) in
  put_task (TM := Memory.model) req (<["0" := t']> Sample.store) =
    (Sent (mkResponse 200 true (Some "Task updated successfully") None (OneTask ("0", t'))),
     <["0" := t']> Sample.store) /\
  get_task req (<["0" := t']> Sample.store) =
    (Sent (mkResponse 200 true None None (OneTask ("0", t'))), <["0" := t']> Sample.store).
Proof.
  intros req t'.
  assert (P : put_task (TM := Memory.model) req Sample.store =
              (Sent (mkResponse 200 true (Some "Task updated successfully") None
                       (OneTask ("0", t'))),
               <["0" := t']> Sample.store)) by (vm_compute; reflexivity).
  exact (update_twice (TM := Memory.model) req _ _ _ P eq_refl).
Defined.

(** ** Create, again *)

Lemma post_task_created {TM : TaskModel} req s s' resp d :
  post_task req s = (Sent resp, s') -> data resp = OneTask d ->
  exists x, prop JUndefined (body req) "title" = JStr x /\ blank x = false /\
            d = drafted req x s /\ status resp = 201%Z /\
            s' = <[_id d := fields d]> s.
Proof.
  intros P D.
  destruct (post_task_cases req s) as [[E _] | [[E _] | (x & T & B & _ & E)]];
    rewrite E in P.
  - inversion P; subst. discriminate D.
  - discriminate P.
  - unfold saved_as_new in P. destruct (validate _); [|discriminate P].
    inversion P; subst. simpl in D. inversion D; subst. exists x. auto.
Qed.

(** X10.  What the create route stores: the trimmed title, which is not
    blank; [completed: false] whatever the body says; the trimmed
    description when the body has a truthy one and none otherwise; the date
    built from a truthy due date and none otherwise; a truthy priority as it
    is and the default of the schema otherwise. *)
Theorem created_fields {TM : TaskModel}
    (req : request) (s s' : collection) (resp : response) (d : document) :
  post_task req s = (Sent resp, s') ->
  data resp = OneTask d ->
  let given k := prop JUndefined (body req) k in
  (exists x, given "title" = JStr x /\ title (fields d) = trim x) /\
  blank (title (fields d)) = false /\
  completed (fields d) = JBool false /\
  (truthy (given "description") = false -> description (fields d) = JUndefined) /\
  (truthy (given "description") = true ->
   exists y, given "description" = JStr y /\ description (fields d) = JStr (trim y)) /\
  dueDate (fields d) =
    (if truthy (given "dueDate") then JDate (given "dueDate") else JUndefined) /\
  priority (fields d) =
    (if truthy (given "priority") then given "priority" else default_priority).
Proof.
  intros P D given.
  destruct (post_task_cases req s) as [[E _] | [[E _] | (x & T & B & Hd & E)]];
    rewrite E in P.
  - inversion P; subst. discriminate D.
  - discriminate P.
  - unfold saved_as_new in P. destruct (validate _); [|discriminate P].
    inversion P; subst. simpl in D. inversion D; subst. clear P D.
    unfold drafted, fields; simpl. fold (given "description").
    split; [exists x; auto |]. split; [now rewrite blank_trim |].
    split; [reflexivity |]. split; [|split; [|split; reflexivity]].
    + intros F. rewrite F. now destruct (given "description").
    + intros Tr. destruct Hd as [F | S]; [fold (given "description") in F; congruence |].
      fold (given "description") in S.
      destruct (given "description") as [| | | |y| | |] eqn:G; try discriminate S.
      exists y. now rewrite Tr.
Qed.

Lemma created_fields_witness :
  let req := Sample.on_task "carol" ""
               [("title", JStr " Plan trip "); ("description", JStr "");
                ("completed", JBool true); ("priority", JNum 0)] in
  exists d, fst (post_task (TM := Memory.model) req Sample.store) =
            Sent (mkResponse 201 true (Some "Task created successfully") None (OneTask d)) /\
            title (fields d) = "Plan trip" /\ completed (fields d) = JBool false /\
            description (fields d) = JUndefined /\ priority (fields d) = JStr "medium".
Proof.
  intros req.
  pose (d := drafted (TM := Memory.model) req " Plan trip " Sample.store).
  assert (P : post_task (TM := Memory.model) req Sample.store =
              (Sent (mkResponse 201 true (Some "Task created successfully") None (OneTask d)),
               <[_id d := fields d]> Sample.store)) by (vm_compute; reflexivity).
  destruct (created_fields (TM := Memory.model) req _ _ _ d P eq_refl)
    as (_ & _ & C & De & _ & _ & Pr).
  exists d. split; [now rewrite P |]. split; [reflexivity |]. split; [exact C |].
  split; [exact (De eq_refl) | exact Pr].
Defined.

(** X11.  The create route raises a [TypeError] exactly when the title is
    truthy and not a string, or the title is a string that is not blank and
    the description is truthy and not a string. *)
Theorem create_raises_type_error {TM : TaskModel} (req : request) (s : collection) :
  let given k := prop JUndefined (body req) k in
  post_task req s = (Next TypeError, s) <->
  (truthy (given "title") = true /\ is_string (given "title") = false) \/
  (exists x, given "title" = JStr x /\ blank x = false /\
             truthy (given "description") = true /\
             is_string (given "description") = false).
Proof.
  intros given. split.
  - intros P.
    destruct (post_task_cases req s) as [[E _] | [[_ C] | (x & _ & _ & _ & E)]].
    + rewrite E in P. discriminate P.
    + exact C.
    + rewrite E in P. unfold saved_as_new in P.
      destruct (validate _); discriminate P.
  - intros [[T S] | (x & T & B & D & S)].
    + now apply post_task_title_not_string.
    + now apply (post_task_description_not_string req s x).
Qed.

(** X12.  After a create that returned a task, the get route returns that
    task to its creator under the new identifier, and answers 404 to anyone
    else. *)
Theorem create_then_get {TM : TaskModel}
    (req : request) (s s' : collection) (resp : response) (d : document) :
  post_task req s = (Sent resp, s') ->
  data resp = OneTask d ->
  forall req', params_id req' = _id d ->
    (user_id req' = user_id req ->
     get_task req' s' = (Sent (mkResponse 200 true None None (OneTask d)), s')) /\
    (user_id req' <> user_id req -> get_task req' s' = (Sent not_found, s')).
Proof.
  intros P D req' I.
  destruct (post_task_created req s s' resp d P D) as (x & _ & _ & -> & _ & ->).
  set (d := drafted req x s).
  assert (E : <[_id d := fields d]> s !! params_id req' = Some (fields d))
    by (rewrite I; apply lookup_insert_eq).
  split; intros U.
  - rewrite (get_task_owned req' _ _ E); [now rewrite I | now rewrite U].
  - apply get_task_unowned, (owned_foreign _ _ _ _ E). simpl. congruence.
Qed.

Lemma create_then_get_witness :
  let req := Sample.on_task "carol" "" [("title", JStr "Buy milk")] in
  let d : document :=
    ("0000", mkTask "Buy milk" JUndefined JUndefined (JStr "medium") (JBool false) "carol") in
  let s' := snd (post_task (TM := Memory.model) req Sample.store) in
  get_task (Sample.on_task "carol" "0000" []) s' =
    (Sent (mkResponse 200 true None None (OneTask d)), s') /\
  get_task (Sample.on_task "alice" "0000" []) s' = (Sent not_found, s').
Proof.
  intros req d s'.
  assert (P : post_task (TM := Memory.model) req Sample.store =
              (Sent (mkResponse 201 true (Some "Task created successfully") None (OneTask d)),
               s')) by (vm_compute; reflexivity).
  split.
  - exact (proj1 (create_then_get (TM := Memory.model) req _ _ _ d P eq_refl
                    (Sample.on_task "carol" "0000" []) eq_refl) eq_refl).
  - refine (proj2 (create_then_get (TM := Memory.model) req _ _ _ d P eq_refl
                     (Sample.on_task "alice" "0000" []) eq_refl) _).
    simpl. discriminate.
Defined.

(** X13.  Deleting, as its creator, a task that was just created gives back
    the collection as it was before the create. *)
Theorem create_then_delete {TM : TaskModel}
    (req : request) (s s' : collection) (resp : response) (d : document) :
  post_task req s = (Sent resp, s') ->
  data resp = OneTask d ->
  forall req', params_id req' = _id d -> user_id req' = user_id req ->
    delete_task req' s' =
    (Sent (mkResponse 200 true (Some "Task deleted successfully") None NoData), s).
Proof.
  intros P D req' I U.
  destruct (post_task_created req s s' resp d P D) as (x & _ & _ & -> & _ & ->).
  set (d := drafted req x s).
  assert (E : <[_id d := fields d]> s !! params_id req' = Some (fields d))
    by (rewrite I; apply lookup_insert_eq).
  rewrite (delete_task_owned req' _ _ E); [|now rewrite U].
  rewrite I. f_equal. apply delete_insert_id, ObjectId_fresh.
Qed.

Lemma create_then_delete_witness :
  let req := Sample.on_task "carol" "" [("title", JStr "Buy milk")] in
  delete_task (Sample.on_task "carol" "0000" [])
              (snd (post_task (TM := Memory.model) req Sample.store)) =
  (Sent (mkResponse 200 true (Some "Task deleted successfully") None NoData), Sample.store).
Proof.
  intros req.
  pose (d := drafted (TM := Memory.model) req "Buy milk" Sample.store).
  assert (P : post_task (TM := Memory.model) req Sample.store =
              (Sent (mkResponse 201 true (Some "Task created successfully") None (OneTask d)),
               snd (post_task (TM := Memory.model) req Sample.store)))
    by (vm_compute; reflexivity).
  exact (create_then_delete (TM := Memory.model) req _ _ _ d P eq_refl
           (Sample.on_task "carol" "0000" []) eq_refl eq_refl).
Defined.

(** X14.  After a create that returned a task, the creator's list without
    filters holds that task besides what it held before, and its count has
    grown by one. *)
Theorem create_then_list {TM : TaskModel}
    (req : request) (s s' : collection) (resp : response) (d : document) :
  post_task req s = (Sent resp, s') ->
  data resp = OneTask d ->
  forall req', user_id req' = user_id req ->
    query req' !! "priority" = None -> query req' !! "completed" = None ->
    exists ds ds',
      get_tasks req' s =
        (Sent (mkResponse 200 true None (Some (length ds)) (Tasks ds)), s) /\
      get_tasks req' s' =
        (Sent (mkResponse 200 true None (Some (length ds')) (Tasks ds')), s') /\
      (forall x, x ∈ ds' <-> x = d \/ x ∈ ds) /\
      length ds' = S (length ds).
Proof.
  intros P D req' U Qp Qc.
  destruct (post_task_created req s s' resp d P D) as (x & _ & _ & Hd & _ & ->).
  assert (F : s !! _id d = None) by (rewrite Hd; apply ObjectId_fresh).
  assert (Ud : user (fields d) = user_id req') by (rewrite Hd, U; reflexivity).
  destruct (get_tasks_members req' s) as (ds & E & N & M).
  destruct (get_tasks_members req' (<[_id d := fields d]> s)) as (ds' & E' & N' & M').
  rewrite Qp, Qc in M, M'. simpl in M, M'.
  assert (Mem : forall y, y ∈ ds' <-> y = d \/ y ∈ ds).
  { intros [i t]. rewrite M', M. destruct d as [j td]. unfold _id, fields in *; simpl in *.
    destruct (decide (j = i)) as [-> | Nji].
    - rewrite lookup_insert_eq. split.
      + intros ([= <-] & _). now left.
      + intros [[= <-] | (Ei & _)]; [auto | congruence].
    - rewrite lookup_insert_ne by exact Nji. split.
      + intros (Ei & Ui & _). right. auto.
      + intros [[= <- <-] | (Ei & Ui & _)]; [contradiction | auto]. }
  exists ds, ds'. split; [exact E |]. split; [exact E' |]. split; [exact Mem |].
  assert (Nd : d ∉ ds).
  { destruct d as [j td]. rewrite M. unfold _id in F; simpl in F.
    intros (Ej & _). congruence. }
  assert (Pm : ds' ≡ₚ d :: ds).
  { apply NoDup_Permutation; [exact N' | now constructor |].
    intros y. rewrite Mem, elem_of_cons. reflexivity. }
  now rewrite Pm.
Qed.

Lemma create_then_list_witness :
  let req := Sample.on_task "alice" "" [("title", JStr "Buy milk")] in
  let s' := snd (post_task (TM := Memory.model) req Sample.store) in
  exists ds ds',
    get_tasks (TM := Memory.model) (Sample.listing "alice" []) Sample.store =
      (Sent (mkResponse 200 true None (Some (length ds)) (Tasks ds)), Sample.store) /\
    get_tasks (TM := Memory.model) (Sample.listing "alice" []) s' =
      (Sent (mkResponse 200 true None (Some (length ds')) (Tasks ds')), s') /\
    length ds' = S (length ds).
Proof.
  intros req s'.
  pose (d := drafted (TM := Memory.model) req "Buy milk" Sample.store).
  assert (P : post_task (TM := Memory.model) req Sample.store =
              (Sent (mkResponse 201 true (Some "Task created successfully") None (OneTask d)),
               s')) by (vm_compute; reflexivity).
  destruct (create_then_list (TM := Memory.model) req _ _ _ d P eq_refl
              (Sample.listing "alice" []) eq_refl eq_refl eq_refl)
    as (ds & ds' & E & E' & _ & L).
  exists ds, ds'. auto.
Defined.

(** ** Delete, again *)

(** X15.  Once the delete route has answered 200, every route that names
    the deleted task answers 404 to every caller and changes nothing. *)
Theorem deleted_task_is_gone {TM : TaskModel}
    (req : request) (s s' : collection) (resp : response) :
  delete_task req s = (Sent resp, s') ->
  status resp = 200%Z ->
  forall r req', names_a_task r = true -> params_id req' = params_id req ->
    handle r req' s' = (Sent not_found, s').
Proof.
  intros P S r req' N I.
  destruct (owned_cases s (params_id req) (user_id req)) as [O | (t & E & U)].
  { rewrite (delete_task_unowned req s O) in P. inversion P; subst. discriminate S. }
  rewrite (delete_task_owned req s t E U) in P. inversion P; subst. clear P.
  assert (O : owned (delete (params_id req) s) (params_id req') (user_id req') = None)
    by (rewrite I; apply owned_absent, lookup_delete_eq).
  destruct r; try discriminate N; cbn [handle].
  - now apply get_task_unowned.
  - now apply put_task_unowned.
  - now apply delete_task_unowned.
  - now apply toggle_task_unowned.
Qed.

Lemma deleted_task_is_gone_witness :
  let s' := delete "0" Sample.store in
  handle (TM := Memory.model) PUT_task
         (Sample.on_task "alice" "0" [("title", JStr "Back again")]) s' =
  (Sent not_found, s').
Proof.
  intros s'.
  assert (P : delete_task (Sample.on_task "alice" "0" []) Sample.store =
              (Sent (mkResponse 200 true (Some "Task deleted successfully") None NoData), s'))
    by (vm_compute; reflexivity).
  exact (deleted_task_is_gone (TM := Memory.model) _ _ _ _ P eq_refl PUT_task
           (Sample.on_task "alice" "0" [("title", JStr "Back again")]) eq_refl eq_refl).
Defined.

(** ** List, again *)

(** X16.  The lists of two different users have no document in common,
    whatever their queries. *)
Theorem lists_of_two_users_are_apart {TM : TaskModel}
    (req1 req2 : request) (s s1 s2 : collection) (resp1 resp2 : response)
    (ds1 ds2 : list document) :
  user_id req1 <> user_id req2 ->
  get_tasks req1 s = (Sent resp1, s1) -> data resp1 = Tasks ds1 ->
  get_tasks req2 s = (Sent resp2, s2) -> data resp2 = Tasks ds2 ->
  forall d, d ∈ ds1 -> d ∉ ds2.
Proof.
  intros U P1 D1 P2 D2 [i t] H1 H2.
  destruct (get_tasks_members req1 s) as (l1 & E1 & _ & M1).
  destruct (get_tasks_members req2 s) as (l2 & E2 & _ & M2).
  rewrite E1 in P1. rewrite E2 in P2. inversion P1; subst. inversion P2; subst.
  simpl in D1, D2. inversion D1; subst. inversion D2; subst.
  apply M1 in H1 as (_ & U1 & _). apply M2 in H2 as (_ & U2 & _). congruence.
Qed.

Lemma lists_of_two_users_are_apart_witness :
  ("000", Sample.taxes) ∉ [("00", Sample.report); ("0", Sample.milk)].
Proof.
  assert (P1 : get_tasks (TM := Memory.model)
                 (Sample.listing "bob" [("priority", "high")]) Sample.store =
               (Sent (mkResponse 200 true None (Some 1%nat) (Tasks [("000", Sample.taxes)])),
                Sample.store)) by (vm_compute; reflexivity).
  assert (P2 : get_tasks (TM := Memory.model) (Sample.listing "alice" []) Sample.store =
               (Sent (mkResponse 200 true None (Some 2%nat)
                        (Tasks [("00", Sample.report); ("0", Sample.milk)])),
                Sample.store)) by (vm_compute; reflexivity).
  refine (lists_of_two_users_are_apart (TM := Memory.model) _ _ _ _ _ _ _ _ _
            _ P1 eq_refl P2 eq_refl _ _).
  - simpl. discriminate.
  - left.
Defined.

(** ** Titles, again *)

Lemma Sample_store_titled : titled Sample.store.
Proof.
  intros i t E.
  destruct (decide (i = "0")) as [-> | N0]; [now inversion E |].
  destruct (decide (i = "00")) as [-> | N1]; [now inversion E |].
  destruct (decide (i = "000")) as [-> | N2]; [now inversion E |].
  unfold Sample.store in E.
  rewrite !lookup_insert_ne, lookup_empty in E by congruence. discriminate E.
Qed.

(** X18.  When no stored title is blank, none is after any route has run,
    provided that, for the update route, the title of the body is not a
    string that trims to the empty string. *)
Theorem routes_keep_titles {TM : TaskModel}
    (r : route) (req : request) (s : collection) :
  titled s ->
  (r = PUT_task -> forall x, prop JUndefined (body req) "title" = JStr x -> blank x = false) ->
  titled (snd (handle r req s)).
Proof.
  intros Hs Hx. destruct r; cbn [handle].
  - destruct (get_tasks_members req s) as (ds & -> & _). exact Hs.
  - destruct (owned_cases s (params_id req) (user_id req)) as [O | (t & E & U)].
    + now rewrite get_task_unowned.
    + now rewrite (get_task_owned req s t E U).
  - now apply post_task_titled.
  - apply put_task_titled; [now apply Hx | exact Hs].
  - now apply delete_task_titled.
  - now apply toggle_task_titled.
Qed.

Lemma routes_keep_titles_witness :
  let req := Sample.on_task "alice" "0" [("title", JStr " Buy bread ")] in
  titled (snd (handle (TM := Memory.model) PUT_task req Sample.store)) /\
  titled (snd (handle (TM := Memory.model) POST_task req Sample.store)).
Proof.
  intros req. split.
  - apply (routes_keep_titles (TM := Memory.model) PUT_task req Sample.store
             Sample_store_titled).
    intros _ x E.
    assert (B : prop JUndefined (body req) "title" = JStr " Buy bread ")
      by (vm_compute; reflexivity).
    rewrite B in E. inversion E; subst. reflexivity.
  - apply (routes_keep_titles (TM := Memory.model) POST_task req Sample.store
             Sample_store_titled).
    intros N. discriminate N.
Defined.

(** ** Titles under a store that enforces them *)





(** The enforcing store still takes what the routes are meant to store. *)
Example strict_store_accepts_titled :
  let create := Sample.on_task "carol" "" [("title", JStr "Buy milk")] in
  let rename := Sample.on_task "alice" "0" [("title", JStr " Buy bread ")] in
  (exists d s', post_task (TM := strict_memory) create Sample.store =
                (Sent (mkResponse 201 true (Some "Task created successfully") None
                         (OneTask d)), s')) /\
  snd (put_task (TM := strict_memory) rename Sample.store) !! "0" =
    Some (set_title "Buy bread" Sample.milk).
Proof.
  intros create rename. split; [|vm_compute; reflexivity].
  eexists _, _. vm_compute. reflexivity.
Qed.

(** ** Toggle and update *)

(** X19.  A toggle that answered 200 has changed nothing of the task but
    its flag, which is now the boolean negation of the truth value it
    had. *)
Theorem toggle_changes_only_the_flag {TM : TaskModel}
    (req : request) (s s' : collection) (resp : response) :
  toggle_task req s = (Sent resp, s') ->
  status resp = 200%Z ->
  exists t t',
    s !! params_id req = Some t /\ s' !! params_id req = Some t' /\
    data resp = OneTask (params_id req, t') /\
    title t' = title t /\ description t' = description t /\
    dueDate t' = dueDate t /\ priority t' = priority t /\ user t' = user t /\
    completed t' = JBool (negb (truthy (completed t))).
Proof.
  intros P S.
  destruct (owned_cases s (params_id req) (user_id req)) as [O | (t & E & U)].
  { rewrite (toggle_task_unowned req s O) in P. inversion P; subst. discriminate S. }
  rewrite (toggle_task_owned req s t E U) in P. cbv zeta in P.
  destruct (validate _); [|discriminate P]. inversion P; subst. clear P.
  exists t, (set_completed (JBool (negb (truthy (completed t)))) t).
  split; [exact E |]. split; [apply lookup_insert_eq |]. repeat split.
Qed.

Lemma toggle_changes_only_the_flag_witness :
  let req := Sample.on_task "alice" "00" [] in
  exists t',
    snd (toggle_task (TM := Memory.model) req Sample.store) !! "00" = Some t' /\
    title t' = "Write report" /\ description t' = JStr "quarterly" /\
    priority t' = JStr "high" /\ completed t' = JBool false.
Proof.
  intros req.
  pose (t1 := set_completed (JBool false) Sample.report).
  assert (P : toggle_task (TM := Memory.model) req Sample.store =
              (Sent (mkResponse 200 true (Some "Task marked as incomplete") None
                       (OneTask ("00", t1))),
               <["00" := t1]> Sample.store)) by (vm_compute; reflexivity).
  destruct (toggle_changes_only_the_flag (TM := Memory.model) req _ _ _ P eq_refl)
    as (t & t' & E & E' & _ & Ti & De & _ & Pr & _ & Co).
  assert (Et : t = Sample.report).
  { assert (E0 : Sample.store !! params_id req = Some Sample.report)
      by (vm_compute; reflexivity).
    congruence. }
  subst t. exists t'. rewrite P. split; [exact E' |].
  split; [exact Ti |]. split; [exact De |]. split; [exact Pr | exact Co].
Defined.

(** X20.  An update whose body has none of the five fields answers 200 with
    the task as it is stored and leaves the collection as it is. *)
Theorem update_without_fields {TM : TaskModel}
    (req : request) (s : collection) (t : Task) :
  s !! params_id req = Some t ->
  user t = user_id req ->
  body req !! "title" = None ->
  body req !! "description" = None ->
  body req !! "dueDate" = None ->
  body req !! "priority" = None ->
  body req !! "completed" = None ->
  validate t = true ->
  put_task req s =
  (Sent (mkResponse 200 true (Some "Task updated successfully") None
           (OneTask (params_id req, t))), s).
Proof.
  intros E U B1 B2 B3 B4 B5 V.
  assert (R : revised req t = t).
  { unfold revised, prop. rewrite B1, B2, B3, B4, B5. simpl. now destruct t. }
  rewrite (put_task_saves req s t E U);
    [| unfold prop; rewrite B1; reflexivity | unfold prop; rewrite B2; reflexivity].
  rewrite R, V. now rewrite (insert_id s _ _ E).
Qed.

Lemma update_without_fields_witness :
  put_task (TM := Memory.model) (Sample.on_task "alice" "0" [("owner", JStr "bob")])
           Sample.store =
  (Sent (mkResponse 200 true (Some "Task updated successfully") None
           (OneTask ("0", Sample.milk))), Sample.store).
Proof.
  apply (update_without_fields (TM := Memory.model)
           (Sample.on_task "alice" "0" [("owner", JStr "bob")]) Sample.store Sample.milk);
    vm_compute; reflexivity.
Defined.

(** X21.  On an owned task, a toggle leaves the collection and returns the
    task as the update with [{ completed: b }] does, [b] being the negation
    of the truth value of the stored flag. *)
Theorem toggle_is_an_update {TM : TaskModel}
    (req : request) (s : collection) (t : Task) :
  s !! params_id req = Some t ->
  user t = user_id req ->
  let flipped := JBool (negb (truthy (completed t))) in
  let req' := mkRequest (user_id req) (params_id req) (query req)
                        {["completed" := flipped]} in
  snd (toggle_task req s) = snd (put_task req' s) /\
  match fst (toggle_task req s), fst (put_task req' s) with
  | Sent a, Sent b => data a = data b /\ status a = status b
  | Next e, Next e' => e = e'
  | _, _ => False
  end.
Proof.
  intros E U flipped req'.
  assert (R : revised req' t = set_completed flipped t).
  { unfold revised, prop, req'; cbn [body].
    rewrite (lookup_singleton_ne "completed" "title"),
            (lookup_singleton_ne "completed" "description"),
            (lookup_singleton_ne "completed" "dueDate"),
            (lookup_singleton_ne "completed" "priority") by discriminate.
    rewrite lookup_singleton_eq. reflexivity. }
  rewrite (toggle_task_owned req s t E U). cbv zeta. fold flipped.
  rewrite (put_task_saves req' s t E U).
  - rewrite R. cbn [params_id req']. destruct (validate _); simpl; auto.
  - unfold prop, req'; cbn [body].
    now rewrite (lookup_singleton_ne "completed" "title") by discriminate.
  - unfold prop, req'; cbn [body].
    now rewrite (lookup_singleton_ne "completed" "description") by discriminate.
Qed.

Lemma toggle_is_an_update_witness :
  snd (toggle_task (TM := Memory.model) (Sample.on_task "alice" "0" []) Sample.store) =
  snd (put_task (TM := Memory.model)
         (Sample.on_task "alice" "0" [("completed", JBool true)]) Sample.store).
Proof.
  assert (E : Sample.store !! params_id (Sample.on_task "alice" "0" []) = Some Sample.milk)
    by (vm_compute; reflexivity).
  destruct (toggle_is_an_update (TM := Memory.model)
              (Sample.on_task "alice" "0" []) Sample.store Sample.milk E eq_refl)
    as [H _].
  exact H.
Defined.
